(** * Pricing recommendation engine ([app.py])

    [app.py] is a straight-line Streamlit script.  After selecting the
    latest row of one SKU (line 39) it derives, variable by variable, a
    cost model, three adjustment signals, a recommended price, a risk label
    and a list of rationale strings (lines 44-137 and 162-169).  Every
    variable of that part of the script is embedded below as a function of
    the row, under the name it has in the script.  The script has no
    validation step and no [raise] of its own.

    Rows.  [row] is a pandas Series indexed by column name, read only through
    [row.get(key, default)]; it is a finite map from column names to cells.
    A column the data does not have is a missing key; a cell the data leaves
    empty is a present key holding [nan].  [row.get] gives its default for a
    missing key only: an empty cell is read as [nan].

    Numbers.  The cells are numpy [float64] scalars and the defaults given to
    [row.get] are Python numbers.  An operation with a numpy operand is
    numpy's: a division by zero does not raise, it yields an infinity or
    [nan] (with a warning).  Every comparison with [nan] is false.  The
    script uses the numbers through [+ - * /], [<], [>], truthiness,
    [pd.isna] and [max] only, so the embedding is written once over an
    interface [PyNum] and run on two implementations:

    - [xq], exact rationals extended with the IEEE special values [+inf],
      [-inf] and [nan].  Rounding, overflow, the wrap-around of an integer
      column and the sign of zero are abstracted away: a statement on [xq]
      is about the exact values of the quantities.
    - [float], the kernel's binary64 numbers, which replays the script bit
      for bit on concrete rows.

    Properties that only depend on the control flow are proved for every
    implementation of the interface.

    Python numbers.  An operation on two Python numbers is Python's, whose
    division by zero raises [ZeroDivisionError].  The divisors of lines 65,
    72 and 73 are never zero when they are Python numbers (they are then
    [0 + 1], [1 - 10/100] and [1 - 25/100]) and line 55 is guarded, so only
    line 128 can raise; [line_128] below says when it does.  The functions
    of the section [Engine] give the values the script computes wherever it
    does not raise. *)

From Stdlib Require Import ZArith QArith Qabs Lqa Lia Floats Uint63.
From stdpp Require Import gmap strings.

Set Warnings "-inexact-float".

(** ** The numeric interface used by the script *)

Class PyNum (num : Type) := {
  nlit : Q -> num;            (* a numeric literal of the script *)
  nnan : num;                 (* [np.nan] *)
  nadd : num -> num -> num;
  nsub : num -> num -> num;
  nmul : num -> num -> num;
  ndiv : num -> num -> num;
  nneg : num -> num;
  nltb : num -> num -> bool;  (* [a < b] *)
  nleb : num -> num -> bool;  (* [a <= b] *)
  neqb : num -> num -> bool   (* [a == b] *)
}.

Declare Scope num_scope.
Delimit Scope num_scope with num.
Arguments nlit {num _} q%_Q.
Abbreviation lit q := (nlit q%Q) (only parsing).
Infix "+" := nadd : num_scope.
Infix "-" := nsub : num_scope.
Infix "*" := nmul : num_scope.
Infix "/" := ndiv : num_scope.
Notation "- x" := (nneg x) : num_scope.
Infix "<?" := nltb : num_scope.
Infix "<=?" := nleb : num_scope.
Infix "=?" := neqb : num_scope.
Notation "a >? b" := (nltb b a) (at level 70, only parsing) : num_scope.
Notation "a >=? b" := (nleb b a) (at level 70, only parsing) : num_scope.

(** ** Extended rationals *)

Inductive xq : Type :=
| Fin (q : Q)
| PosInf
| NegInf
| Nan.

Definition Qltb (a b : Q) : bool := negb (Qle_bool b a).

Module XQ.

Definition add (x y : xq) : xq :=
  match x, y with
  | Nan, _ | _, Nan => Nan
  | Fin a, Fin b => Fin (a + b)
  | PosInf, NegInf | NegInf, PosInf => Nan
  | PosInf, _ | _, PosInf => PosInf
  | NegInf, _ | _, NegInf => NegInf
  end.

Definition neg (x : xq) : xq :=
  match x with
  | Fin a => Fin (- a)
  | PosInf => NegInf
  | NegInf => PosInf
  | Nan => Nan
  end.

Definition sub (x y : xq) : xq := add x (neg y).

(* An infinity times a finite factor: [0 * inf] is [nan], otherwise the
   sign of the factor decides. *)
Definition scale_inf (pos : bool) (a : Q) : xq :=
  if Qeq_bool a 0 then Nan
  else if Bool.eqb pos (Qltb 0 a) then PosInf else NegInf.

Definition mul (x y : xq) : xq :=
  match x, y with
  | Nan, _ | _, Nan => Nan
  | Fin a, Fin b => Fin (a * b)
  | Fin a, PosInf | PosInf, Fin a => scale_inf true a
  | Fin a, NegInf | NegInf, Fin a => scale_inf false a
  | PosInf, PosInf | NegInf, NegInf => PosInf
  | PosInf, NegInf | NegInf, PosInf => NegInf
  end.

(* numpy semantics of [/]: [x / 0] is [nan] for [x = 0] and an infinity of
   the sign of [x] otherwise (the zero divisors of the script are [+0.0]). *)
Definition div (x y : xq) : xq :=
  match x, y with
  | Nan, _ | _, Nan => Nan
  | Fin a, Fin b =>
      if Qeq_bool b 0
      then (if Qeq_bool a 0 then Nan else if Qltb 0 a then PosInf else NegInf)
      else Fin (a / b)
  | Fin _, (PosInf | NegInf) => Fin 0
  | PosInf, Fin b => if Qltb b 0 then NegInf else PosInf
  | NegInf, Fin b => if Qltb b 0 then PosInf else NegInf
  | (PosInf | NegInf), (PosInf | NegInf) => Nan
  end.

Definition ltb (x y : xq) : bool :=
  match x, y with
  | Nan, _ | _, Nan => false
  | Fin a, Fin b => Qltb a b
  | _, NegInf => false
  | NegInf, _ => true
  | PosInf, _ => false
  | Fin _, PosInf => true
  end.

Definition leb (x y : xq) : bool :=
  match x, y with
  | Nan, _ | _, Nan => false
  | Fin a, Fin b => Qle_bool a b
  | NegInf, _ => true
  | _, PosInf => true
  | _, _ => false
  end.

Definition eqb (x y : xq) : bool :=
  match x, y with
  | Fin a, Fin b => Qeq_bool a b
  | PosInf, PosInf | NegInf, NegInf => true
  | _, _ => false
  end.

End XQ.

#[export] Instance xq_num : PyNum xq := {
  nlit := Fin;
  nnan := Nan;
  nadd := XQ.add;
  nsub := XQ.sub;
  nmul := XQ.mul;
  ndiv := XQ.div;
  nneg := XQ.neg;
  nltb := XQ.ltb;
  nleb := XQ.leb;
  neqb := XQ.eqb
}.

(** ** Binary64 *)

Module B64.

Definition of_Z (z : Z) : float := PrimFloat.of_uint63 (Uint63.of_Z z).

(* The binary64 value of a decimal literal [n/d]: the correctly rounded
   quotient of two integers that are exact in binary64 (below 2^53). *)
Definition lit (q : Q) : float :=
  let m := PrimFloat.div (of_Z (Z.abs (Qnum q))) (of_Z (Zpos (Qden q))) in
  if (Qnum q <? 0)%Z then PrimFloat.opp m else m.

End B64.

#[export] Instance float_num : PyNum float := {
  nlit := B64.lit;
  nnan := PrimFloat.nan;
  nadd := PrimFloat.add;
  nsub := PrimFloat.sub;
  nmul := PrimFloat.mul;
  ndiv := PrimFloat.div;
  nneg := PrimFloat.opp;
  nltb := PrimFloat.ltb;
  nleb := PrimFloat.leb;
  neqb := PrimFloat.eqb
}.

(** ** The script *)

Section Engine.

Context {num : Type} `{PyNum num}.
Local Open Scope num_scope.

(* [bool(x)] of a number: [x != 0] (so [nan] is truthy). *)
Definition truthy (x : num) : bool := negb (x =? lit 0).

(* [pd.isna(x)] of a float: [x] is [nan], the one value with [x != x]. *)
Definition isna (x : num) : bool := negb (x =? x).

(* The builtin [max(a, b)]: the first argument unless the second is
   greater ([b > a]). *)
Definition py_max (a b : num) : num := if b >? a then b else a.

(* [row.get(key, default)]: the cell when the row has the column, the
   default otherwise.  A present cell that is empty in the data is [nan]. *)
Definition get (row : gmap string num) (key : string) (dflt : num) : num :=
  default dflt (row !! key).

(* lines 44-49 *)
Definition total_cost (row : gmap string num) : num :=
  get row "Cost" (lit 0)
  + get row "FBA_Fee" (lit 0)
  + get row "Storage_Fee" (lit 0)
  + get row "Handling_Cost" (lit 0).

(* lines 51-52 *)
Definition min_margin (row : gmap string num) : num :=
  get row "Minimum_Acceptable_Margin_%" (lit 10) / lit 100.
Definition target_margin (row : gmap string num) : num :=
  get row "Target_Gross_Margin_%" (lit 25) / lit 100.

(* lines 54-55 *)
Definition current_price (row : gmap string num) : num :=
  get row "Current_Price" (lit 0).
Definition current_margin (row : gmap string num) : num :=
  if truthy (current_price row)
  then (current_price row - total_cost row) / current_price row
  else lit 0.

(* lines 57-61 *)
Definition days_supply (row : gmap string num) : num :=
  get row "days_of_supply" nnan.
Definition competitor_avg (row : gmap string num) : num :=
  get row "Avg_Competitor_Price" nnan.
Definition competitor_low (row : gmap string num) : num :=
  get row "Lowest_Competitor_Price" nnan.
Definition competitor_high (row : gmap string num) : num :=
  get row "Highest_Competitor_Price" nnan.

(* lines 63-67 *)
Definition units90 (row : gmap string num) : num :=
  get row "units_shipped_t90" (lit 0).
Definition returns90 (row : gmap string num) : num :=
  get row "returns_t90" (lit 0).
Definition return_risk_load (row : gmap string num) : num :=
  (returns90 row / (units90 row + lit 1)) * total_cost row.
Definition ads_acos (row : gmap string num) : num :=
  get row "acosClicks14d" nnan.

(* lines 72-73 *)
Definition min_price_allowed (row : gmap string num) : num :=
  total_cost row / (lit 1 - min_margin row).
Definition target_price (row : gmap string num) : num :=
  total_cost row / (lit 1 - target_margin row).

(* lines 78-85 *)
Definition inventory_signal (row : gmap string num) : num :=
  if isna (days_supply row) then lit 0
  else if days_supply row <? lit 20 then lit 0.05
  else if days_supply row >? lit 90 then - lit 0.05
  else lit 0.

(* lines 90-93 *)
Definition competitor_target (row : gmap string num) : num :=
  if negb (isna (competitor_avg row))
  then lit 0.7 * competitor_avg row + lit 0.3 * current_price row
  else current_price row.

(* lines 98-105 *)
Definition ads_signal (row : gmap string num) : num :=
  if isna (ads_acos row) then lit 0
  else if ads_acos row >? lit 40 then lit 0.05
  else if ads_acos row <? lit 20 then - lit 0.05
  else lit 0.

(* line 110 *)
Definition risk_signal (row : gmap string num) : num :=
  if return_risk_load row >? lit 0.2 * total_cost row then lit 0.05 else lit 0.

(* line 115 *)
Definition base (row : gmap string num) : num :=
  py_max (target_price row) (min_price_allowed row).

(* lines 120-123: the base price with the three signals applied *)
Definition signalled_price (row : gmap string num) : num :=
  let recommended_price := base row in
  let recommended_price := recommended_price * (lit 1 + inventory_signal row) in
  let recommended_price := recommended_price * (lit 1 + ads_signal row) in
  let recommended_price := recommended_price * (lit 1 + risk_signal row) in
  recommended_price.

(* line 125: the blend with the competitor target *)
Definition blended_price (row : gmap string num) : num :=
  lit 0.6 * signalled_price row + lit 0.4 * competitor_target row.

(* line 126: the value [recommended_price] holds from there on *)
Definition recommended_price (row : gmap string num) : num :=
  py_max (blended_price row) (min_price_allowed row).

(* line 128, as numpy divides: [0 / 0] is [nan].  When both operands are
   Python numbers the division raises instead, see [line_128]. *)
Definition recommended_margin (row : gmap string num) : num :=
  (recommended_price row - total_cost row) / recommended_price row.

(* lines 133-137 *)
Definition risk_level (row : gmap string num) : string :=
  let risk_level := "LOW" in
  if (return_risk_load row >? lit 0.2 * total_cost row)
     || (negb (isna (ads_acos row)) && (ads_acos row >? lit 40))
  then "HIGH"
  else if negb (isna (days_supply row)) && (days_supply row <? lit 20)
  then "MEDIUM"
  else risk_level.

(* lines 162-169; [append] is [reason.append] *)
Definition append (l : list string) (s : string) : list string := l ++ [s].

Definition reason (row : gmap string num) : list string :=
  let reason := [] in
  let reason :=
    if inventory_signal row >? lit 0
    then append reason "Low inventory → price increased slightly"
    else if inventory_signal row <? lit 0
    then append reason "High inventory → price reduced slightly"
    else reason in
  let reason :=
    if ads_signal row >? lit 0
    then append reason "High ACOS → price increased to protect margin"
    else if ads_signal row <? lit 0
    then append reason "Efficient ads → price optimized for volume"
    else reason in
  let reason :=
    if risk_signal row >? lit 0
    then append reason "High returns → risk-adjusted pricing"
    else reason in
  let reason :=
    if negb (isna (competitor_avg row))
    then append reason "Price aligned with competitor market"
    else reason in
  let reason :=
    if Nat.eqb (length reason) 0
    then append reason "Price optimized to reach target margin safely"
    else reason in
  reason.

End Engine.

(** ** What the claims say, in the script's terms *)

Section Rules.

Context {num : Type} `{PyNum num}.
Local Open Scope num_scope.

(* Rule 1 of the risk classification. *)
Definition high_risk (row : gmap string num) : Prop :=
  (return_risk_load row >? lit 0.2 * total_cost row) = true
  \/ (isna (ads_acos row) = false /\ (ads_acos row >? lit 40) = true).

(* Rule 2 of the risk classification. *)
Definition low_stock (row : gmap string num) : Prop :=
  isna (days_supply row) = false /\ (days_supply row <? lit 20) = true.

(* The rationale strings whose condition holds, in the order inventory, ads,
   risk, competitor. *)
Definition fired (row : gmap string num) : list string :=
  (if inventory_signal row >? lit 0
   then ["Low inventory → price increased slightly"]
   else if inventory_signal row <? lit 0
   then ["High inventory → price reduced slightly"]
   else [])
  ++ (if ads_signal row >? lit 0
      then ["High ACOS → price increased to protect margin"]
      else if ads_signal row <? lit 0
      then ["Efficient ads → price optimized for volume"]
      else [])
  ++ (if risk_signal row >? lit 0
      then ["High returns → risk-adjusted pricing"]
      else [])
  ++ (if negb (isna (competitor_avg row))
      then ["Price aligned with competitor market"]
      else []).

(* [x] is the decimal [v] to the four places the specification writes. *)
Definition close_to (v : Q) (x : num) : bool :=
  (lit v - lit 0.00005 <=? x) && (x <=? lit v + lit 0.00005).

(* The outputs the specification lists for its scenario. *)
Definition scenario_outputs (row : gmap string num) : Prop :=
  (total_cost row =? lit 15) = true
  /\ close_to 16.6667 (min_price_allowed row) = true
  /\ (target_price row =? lit 20) = true
  /\ inventory_signal row = lit 0.05
  /\ ads_signal row = lit 0.05
  /\ risk_signal row = lit 0
  /\ close_to 20.8 (competitor_target row) = true
  /\ close_to 21.55 (recommended_price row) = true
  /\ risk_level row = "HIGH"
  /\ reason row =
       ["Low inventory → price increased slightly";
        "High ACOS → price increased to protect margin";
        "Price aligned with competitor market"].

End Rules.

(** ** Order facts the script relies on

    The few facts about [<], [<=] and [==] that the properties below need
    from an implementation of the numbers; both implementations have them
    ([xq_laws] and [float_laws]). *)

Class PyNumLaws (num : Type) `{PyNum num} : Prop := {
  (* a number that is not [nan] is [<=] itself *)
  nleb_refl : forall x : num, (x =? x)%num = true -> (x <=? x)%num = true;
  (* numbers that are not [nan] are totally ordered *)
  nltb_false : forall x y : num,
    (x =? x)%num = true -> (y =? y)%num = true ->
    (x <? y)%num = false -> (y <=? x)%num = true;
  (* a positive number is not zero *)
  npos_nonzero : forall x : num,
    (x >? lit 0)%num = true -> (x =? lit 0)%num = false;
  (* zero is a number, and the three values of a signal differ *)
  zero_is_number : (lit 0 =? lit 0)%num = true;
  signal_zero_up : (lit 0 =? lit 0.05)%num = false;
  signal_down_up : (- lit 0.05 =? lit 0.05)%num = false
}.

(** ** Rows of numbers

    [valid_row] decides whether the script reads numbers of the data model
    from a row of extended rationals: non-negative finite amounts, margin
    percentages below 100, and optional fields that hold a number or [nan]
    (an empty cell, or no column at all).  The costs, the margins, the
    current price and the two counts satisfy it when their column is missing
    (the script then reads the default) and when their cell holds such a
    number.  An empty cell in one of these columns does not satisfy it: the
    script reads [nan] there, not the default (see
    [empty_cell_is_not_defaulted]). *)

Definition nonneg (x : xq) : bool :=
  match x with Fin q => Qle_bool 0 q | _ => false end.

Definition below (bound : Q) (x : xq) : bool :=
  match x with Fin q => Qltb q bound | _ => false end.

Definition optional (x : xq) : bool :=
  match x with Fin _ | Nan => true | _ => false end.

Definition valid_costs (row : gmap string xq) : bool :=
  nonneg (get row "Cost" (lit 0))
  && nonneg (get row "FBA_Fee" (lit 0))
  && nonneg (get row "Storage_Fee" (lit 0))
  && nonneg (get row "Handling_Cost" (lit 0)).

Definition valid_margins (row : gmap string xq) : bool :=
  below 100 (get row "Minimum_Acceptable_Margin_%" (lit 10))
  && below 100 (get row "Target_Gross_Margin_%" (lit 25)).

Definition valid_row (row : gmap string xq) : bool :=
  valid_costs row
  && valid_margins row
  && nonneg (current_price row)
  && nonneg (units90 row)
  && nonneg (returns90 row)
  && optional (days_supply row)
  && optional (competitor_avg row)
  && optional (ads_acos row).

(* The three values a signal takes. *)
Definition is_signal (x : xq) : Prop :=
  x = Fin 0 \/ x = Fin 0.05 \/ x = Fin (- 0.05).

(* [cost / (1 - pct / 100)]: the price at which a cost leaves a margin of
   [pct] percent (lines 72-73 on finite numbers). *)
Definition price_at (cost pct : Q) : Q := cost / (1 - pct / 100).

(** ** Concrete rows, on both implementations *)

(* The scenario of the specification. *)
Definition scenario : gmap string xq :=
  list_to_map
    [("Cost", Fin 10); ("FBA_Fee", Fin 3); ("Storage_Fee", Fin 1);
     ("Handling_Cost", Fin 1); ("days_of_supply", Fin 15);
     ("acosClicks14d", Fin 50); ("units_shipped_t90", Fin 100);
     ("returns_t90", Fin 5); ("Avg_Competitor_Price", Fin 22);
     ("Current_Price", Fin 18)].

Definition scenario64 : gmap string float :=
  list_to_map
    [("Cost", 10); ("FBA_Fee", 3); ("Storage_Fee", 1);
     ("Handling_Cost", 1); ("days_of_supply", 15);
     ("acosClicks14d", 50); ("units_shipped_t90", 100);
     ("returns_t90", 5); ("Avg_Competitor_Price", 22);
     ("Current_Price", 18)]%float.

(* A product with a target margin of 100%. *)
Definition full_margin : gmap string xq :=
  list_to_map
    [("Cost", Fin 10); ("FBA_Fee", Fin 3); ("Storage_Fee", Fin 1);
     ("Handling_Cost", Fin 1); ("Target_Gross_Margin_%", Fin 100);
     ("Current_Price", Fin 18)].

Definition full_margin64 : gmap string float :=
  list_to_map
    [("Cost", 10); ("FBA_Fee", 3); ("Storage_Fee", 1);
     ("Handling_Cost", 1); ("Target_Gross_Margin_%", 100);
     ("Current_Price", 18)]%float.

(* A product without costs and without a current price. *)
Definition free_item : gmap string xq :=
  list_to_map
    [("Cost", Fin 0); ("FBA_Fee", Fin 0); ("Storage_Fee", Fin 0);
     ("Handling_Cost", Fin 0); ("Current_Price", Fin 0)].

Definition free_item64 : gmap string float :=
  list_to_map
    [("Cost", 0); ("FBA_Fee", 0); ("Storage_Fee", 0);
     ("Handling_Cost", 0); ("Current_Price", 0)]%float.

(* The scenario with the cost cell left empty in the data. *)
Definition empty_cost : gmap string xq := <["Cost" := Nan]> scenario.

Definition empty_cost64 : gmap string float :=
  <["Cost" := PrimFloat.nan]> scenario64.

(* A product whose minimum-margin cell is empty in the data, offered at 5. *)
Definition empty_margin : gmap string xq :=
  list_to_map
    [("Cost", Fin 10); ("FBA_Fee", Fin 3); ("Storage_Fee", Fin 1);
     ("Handling_Cost", Fin 1); ("Minimum_Acceptable_Margin_%", Nan);
     ("Current_Price", Fin 5)].

Definition empty_margin64 : gmap string float :=
  list_to_map
    [("Cost", 10); ("FBA_Fee", 3); ("Storage_Fee", 1);
     ("Handling_Cost", 1); ("Minimum_Acceptable_Margin_%", PrimFloat.nan);
     ("Current_Price", 5)]%float.

(* The product without costs, with its minimum-margin cell empty. *)
Definition free_item_empty_margin : gmap string xq :=
  <["Minimum_Acceptable_Margin_%" := Nan]> free_item.

Definition free_item_empty_margin64 : gmap string float :=
  <["Minimum_Acceptable_Margin_%" := PrimFloat.nan]> free_item64.

(* The product without costs, with its cost cell empty. *)
Definition free_item_empty_cost : gmap string xq :=
  <["Cost" := Nan]> free_item.

Definition free_item_empty_cost64 : gmap string float :=
  <["Cost" := PrimFloat.nan]> free_item64.

(* A product that is only short of stock. *)
Definition short_supply64 : gmap string float :=
  list_to_map
    [("Cost", 10); ("days_of_supply", 15); ("Current_Price", 18)]%float.

(** * Properties *)

Local Open Scope Q_scope.

(** ** Rational tests as propositions *)

Lemma Qltb_lt (a b : Q) : Qltb a b = true <-> a < b.
Proof.
  unfold Qltb. rewrite Bool.negb_true_iff.
  split.
  - intros E. apply Qnot_le_lt. intros L. apply Qle_bool_iff in L. congruence.
  - intros L. destruct (Qle_bool b a) eqn:E; [|reflexivity].
    apply Qle_bool_iff in E. lra.
Qed.

Lemma Qltb_ge (a b : Q) : Qltb a b = false <-> b <= a.
Proof.
  unfold Qltb. rewrite Bool.negb_false_iff. apply Qle_bool_iff.
Qed.

Lemma Qle_bool_gt (a b : Q) : Qle_bool a b = false <-> b < a.
Proof.
  rewrite <- Qltb_lt. unfold Qltb. now rewrite Bool.negb_true_iff.
Qed.

Lemma Qeq_bool_ne (a b : Q) : Qeq_bool a b = false <-> ~ a == b.
Proof.
  split; [apply Qeq_bool_neq|].
  intros N. destruct (Qeq_bool a b) eqn:E; [|reflexivity].
  apply Qeq_bool_iff in E. contradiction.
Qed.

(* Turns every rational test of the context into its proposition. *)
Ltac qprop :=
  repeat match goal with
    | H : Qltb _ _ = true |- _ => apply Qltb_lt in H
    | H : Qltb _ _ = false |- _ => apply Qltb_ge in H
    | H : Qle_bool _ _ = true |- _ => apply Qle_bool_iff in H
    | H : Qle_bool _ _ = false |- _ => apply Qle_bool_gt in H
    | H : Qeq_bool _ _ = true |- _ => apply Qeq_bool_iff in H
    | H : Qeq_bool _ _ = false |- _ => apply Qeq_bool_ne in H
    end.

(* Splits the goal on every test it branches on. *)
Ltac case_if :=
  repeat match goal with
    | |- context [if ?c then _ else _] => destruct c
    end.

(** ** Both implementations have the order facts *)

#[export] Instance xq_laws : PyNumLaws xq.
Proof.
  split; cbn [nltb nleb neqb nlit nneg xq_num].
  - intros [q| | |]; simpl; try easy.
    intros _. apply Qle_bool_iff. lra.
  - intros [a| | |] [b| | |]; simpl; try easy.
    intros _ _ L. qprop. apply Qle_bool_iff. lra.
  - intros [q| | |]; simpl; try easy.
    intros L. qprop. apply Qeq_bool_ne. lra.
  - reflexivity.
  - reflexivity.
  - reflexivity.
Qed.

(* For binary64, from the specification of the primitive comparisons
   ([FloatAxioms.ltb_spec] and the like) over [SFcompare]. *)

Lemma SFcompare_antisym (x y : spec_float) :
  SFcompare y x = option_map CompOpp (SFcompare x y).
Proof.
  destruct x as [sx|sx| |sx mx ex], y as [sy|sy| |sy my ey];
    try destruct sx; try destruct sy; try reflexivity;
    cbn [SFcompare option_map]; f_equal;
    change (Pos.compare_cont Eq ?a ?b) with (Pos.compare a b);
    rewrite (Z.compare_antisym ex ey), (Pos.compare_antisym mx my);
    destruct (ex ?= ey)%Z, (mx ?= my)%positive; reflexivity.
Qed.

Lemma SFcompare_None (x y : spec_float) :
  SFcompare x y = None -> SFeqb x x = false \/ SFeqb y y = false.
Proof.
  destruct x as [sx|sx| |sx mx ex], y as [sy|sy| |sy my ey];
    try destruct sx; try destruct sy; cbn; auto; discriminate.
Qed.

Lemma SFltb_false (x y : spec_float) :
  SFeqb x x = true -> SFeqb y y = true -> SFltb x y = false -> SFleb y x = true.
Proof.
  intros Hx Hy. unfold SFltb, SFleb. rewrite (SFcompare_antisym x y).
  destruct (SFcompare x y) as [[]|] eqn:E; cbn; try congruence.
  destruct (SFcompare_None _ _ E); congruence.
Qed.

Lemma zero64 : Prim2SF (B64.lit 0) = S754_zero false.
Proof. vm_compute. reflexivity. Qed.

#[export] Instance float_laws : PyNumLaws float.
Proof.
  split; cbn [nltb nleb neqb nlit nneg float_num].
  - intros x. rewrite FloatAxioms.eqb_spec, FloatAxioms.leb_spec.
    unfold SFeqb, SFleb.
    destruct (SFcompare (Prim2SF x) (Prim2SF x)) as [[]|]; congruence.
  - intros x y.
    rewrite !FloatAxioms.eqb_spec, FloatAxioms.ltb_spec, FloatAxioms.leb_spec.
    apply SFltb_false.
  - intros x. rewrite FloatAxioms.eqb_spec, FloatAxioms.ltb_spec, zero64.
    unfold SFeqb, SFltb.
    destruct (Prim2SF x) as [sx|sx| |sx mx ex]; simpl; try destruct sx;
      congruence.
  - vm_compute. reflexivity.
  - vm_compute. reflexivity.
  - vm_compute. reflexivity.
Qed.

(* [B64.lit] gives each literal of the script the value Python reads. *)
Lemma literals64 :
  B64.lit 0 = 0%float /\ B64.lit 1 = 1%float /\ B64.lit 10 = 10%float
  /\ B64.lit 20 = 20%float /\ B64.lit 25 = 25%float /\ B64.lit 40 = 40%float
  /\ B64.lit 90 = 90%float /\ B64.lit 100 = 100%float
  /\ B64.lit 0.05 = 0.05%float /\ B64.lit 0.2 = 0.2%float
  /\ B64.lit 0.3 = 0.3%float /\ B64.lit 0.4 = 0.4%float
  /\ B64.lit 0.6 = 0.6%float /\ B64.lit 0.7 = 0.7%float.
Proof. vm_compute. repeat split. Qed.

(** ** Properties of every row, on every implementation *)

Section Rules_hold.

Context {num : Type} `{PyNum num}.
Local Open Scope num_scope.

(** C6.  The risk level is HIGH when the return-risk load exceeds 0.2 times
    the total cost or the ACOS is present and above 40; otherwise MEDIUM when
    the days of supply are present and below 20; otherwise LOW.  It holds for
    every row and every implementation of the numbers. *)
Theorem risk_classification (row : gmap string num) :
  (high_risk row -> risk_level row = "HIGH")
  /\ (~ high_risk row -> low_stock row -> risk_level row = "MEDIUM")
  /\ (~ high_risk row -> ~ low_stock row -> risk_level row = "LOW").
Proof.
  unfold high_risk, low_stock, risk_level.
  destruct (return_risk_load row >? lit 0.2 * total_cost row) eqn:Eload;
    destruct (isna (ads_acos row)) eqn:Eacos;
    destruct (ads_acos row >? lit 40) eqn:Ehigh;
    destruct (isna (days_supply row)) eqn:Edays;
    destruct (days_supply row <? lit 20) eqn:Elow;
    cbn [orb andb negb]; intuition congruence.
Qed.

(** C7.  The rationale is the list of the strings whose condition holds, in
    the order inventory, ads, risk, competitor; when none holds it is the one
    fallback string; it is never empty.  It holds for every row and every
    implementation of the numbers. *)
Theorem rationale_generation (row : gmap string num) :
  reason row =
    match fired row with
    | [] => ["Price optimized to reach target margin safely"]
    | _ :: _ => fired row
    end
  /\ (1 <= length (reason row))%nat.
Proof.
  assert (E : reason row =
              match fired row with
              | [] => ["Price optimized to reach target margin safely"]
              | _ :: _ => fired row
              end).
  { unfold reason, fired, append.
    destruct (inventory_signal row >? lit 0), (inventory_signal row <? lit 0),
      (ads_signal row >? lit 0), (ads_signal row <? lit 0),
      (risk_signal row >? lit 0), (isna (competitor_avg row));
      reflexivity. }
  split; [exact E|].
  rewrite E. destruct (fired row); simpl; lia.
Qed.

Lemma get_insert_ne (row : gmap string num) (k k' : string) (v d : num) :
  k <> k' -> get (<[k:=v]> row) k' d = get row k' d.
Proof. intros N. unfold get. now rewrite lookup_insert_ne. Qed.

Lemma get_insert_eq (row : gmap string num) (k : string) (v d : num) :
  get (<[k:=v]> row) k d = v.
Proof. unfold get. now rewrite lookup_insert_eq. Qed.

(* Everything but the competitor average is read from other columns. *)
Lemma competitor_frame (row : gmap string num) (v : num) :
  let row' := <["Avg_Competitor_Price" := v]> row in
  total_cost row' = total_cost row
  /\ min_price_allowed row' = min_price_allowed row
  /\ signalled_price row' = signalled_price row
  /\ current_price row' = current_price row
  /\ competitor_avg row' = v.
Proof.
  unfold signalled_price, base, target_price, min_price_allowed, risk_signal,
    ads_signal, inventory_signal, return_risk_load, target_margin, min_margin,
    total_cost, ads_acos, days_supply, returns90, units90, current_price,
    competitor_avg.
  cbn zeta. rewrite get_insert_eq, !get_insert_ne by discriminate.
  repeat split.
Qed.

End Rules_hold.

Section Lawful.

Context {num : Type} `{PyNumLaws num}.
Local Open Scope num_scope.

Lemma isna_false (x : num) : isna x = false <-> (x =? x) = true.
Proof. unfold isna. apply Bool.negb_false_iff. Qed.

(* [max(a, b)] is at least [b] unless one of the two is [nan]. *)
Lemma py_max_floor (a b : num) :
  isna a = false -> isna b = false -> (py_max a b >=? b) = true.
Proof.
  rewrite !isna_false. intros Ha Hb. unfold py_max.
  destruct (b >? a) eqn:E.
  - now apply nleb_refl.
  - now apply nltb_false.
Qed.

(* The floor of line 126, for any row whose blended price and minimum price
   are numbers. *)
Lemma floor_unless_nan (row : gmap string num) :
  isna (blended_price row) = false ->
  isna (min_price_allowed row) = false ->
  (recommended_price row >=? min_price_allowed row) = true.
Proof. apply py_max_floor. Qed.

(** C4.  A current price of zero gives a current margin of exactly zero
    (the literal [0], not [nan]), and a positive current price gives
    [(current_price - total_cost) / current_price].  It holds for every row
    and every implementation of the numbers that has the order facts. *)
Theorem current_margin_zero_guard (row : gmap string num) :
  ((current_price row =? lit 0) = true ->
   current_margin row = lit 0 /\ isna (current_margin row) = false)
  /\ ((current_price row >? lit 0) = true ->
      current_margin row
      = (current_price row - total_cost row) / current_price row).
Proof.
  unfold current_margin, truthy. split.
  - intros ->. cbn [negb]. split; [reflexivity|].
    apply isna_false, zero_is_number.
  - intros Hpos. now rewrite (npos_nonzero _ Hpos).
Qed.

(** C9.  Whenever the risk signal or the ads signal is +0.05, the risk
    level is HIGH: each of the two conditions is a disjunct of rule 1.  It
    holds for every row and every implementation of the numbers that has the
    order facts. *)
Theorem signal_implies_high_risk (row : gmap string num) :
  (risk_signal row =? lit 0.05) = true \/ (ads_signal row =? lit 0.05) = true ->
  risk_level row = "HIGH".
Proof.
  pose proof signal_zero_up as Hz. pose proof signal_down_up as Hd.
  unfold risk_signal, ads_signal, risk_level.
  intros [Hrisk | Hads].
  - destruct (return_risk_load row >? lit 0.2 * total_cost row);
      [reflexivity | congruence].
  - destruct (isna (ads_acos row)); [congruence|].
    destruct (ads_acos row >? lit 40).
    + now rewrite Bool.orb_true_r.
    + destruct (ads_acos row <? lit 20); congruence.
Qed.

End Lawful.

(** ** Valid rows evaluate to finite numbers *)

Lemma nonneg_inv (x : xq) : nonneg x = true -> exists q, x = Fin q /\ 0 <= q.
Proof.
  destruct x as [q| | |]; simpl; try discriminate.
  intros L. qprop. eauto.
Qed.

Lemma below_inv (bound : Q) (x : xq) :
  below bound x = true -> exists q, x = Fin q /\ q < bound.
Proof.
  destruct x as [q| | |]; simpl; try discriminate.
  intros L. qprop. eauto.
Qed.

Lemma optional_inv (x : xq) :
  optional x = true -> x = Nan \/ exists q, x = Fin q.
Proof.
  destruct x as [q| | |]; simpl; try discriminate; eauto.
Qed.

Lemma isna_fin (q : Q) : isna (Fin q) = false.
Proof.
  unfold isna. cbn. rewrite Bool.negb_false_iff. apply Qeq_bool_iff.
  reflexivity.
Qed.

Lemma div_finite (a b : Q) : ~ b == 0 -> XQ.div (Fin a) (Fin b) = Fin (a / b).
Proof.
  intros N. simpl. apply Qeq_bool_ne in N. now rewrite N.
Qed.

Lemma percent (pct : Q) : pct / 100 == pct * 0.01.
Proof. field. Qed.

Lemma price_at_sign (cost pct : Q) :
  pct < 100 -> 0 <= cost ->
  0 <= price_at cost pct
  /\ (0 < cost -> 0 < price_at cost pct)
  /\ (cost == 0 -> price_at cost pct == 0).
Proof.
  intros Hp Hc. unfold price_at.
  assert (D : 0 < 1 - pct / 100) by (rewrite percent; lra).
  repeat split.
  - apply Qle_shift_div_l; lra.
  - intros. apply Qlt_shift_div_l; lra.
  - intros ->. field. lra.
Qed.

Lemma price_finite (cost pct : Q) :
  pct < 100 ->
  XQ.div (Fin cost) (XQ.sub (Fin 1) (XQ.div (Fin pct) (Fin 100)))
  = Fin (price_at cost pct).
Proof.
  intros Hp.
  rewrite div_finite by (intros E; discriminate E).
  cbn [XQ.sub XQ.neg XQ.add].
  rewrite div_finite; [reflexivity|].
  rewrite percent. lra.
Qed.

(* With a margin of exactly 100% the denominator is zero and a positive cost
   is divided into [+inf]. *)
Lemma price_at_full_margin (cost pct : Q) :
  0 < cost ->
  let price :=
    XQ.div (Fin cost) (XQ.sub (Fin 1) (XQ.div (Fin pct) (Fin 100))) in
  (pct == 100 -> price = PosInf) /\ (~ pct == 100 -> exists q, price = Fin q).
Proof.
  intros Hc. cbn zeta.
  rewrite div_finite by (intros E; discriminate E).
  cbn [XQ.sub XQ.neg XQ.add]. split.
  - intros E. cbn [XQ.div].
    assert (D : 1 + - (pct / 100) == 0) by (rewrite percent; lra).
    apply Qeq_bool_iff in D. rewrite D.
    assert (N : Qeq_bool cost 0 = false) by (apply Qeq_bool_ne; lra).
    assert (P : Qltb 0 cost = true) by (now apply Qltb_lt).
    now rewrite N, P.
  - intros N. rewrite div_finite; eauto. rewrite percent. lra.
Qed.

Lemma total_cost_finite (row : gmap string xq) :
  valid_costs row = true -> exists tc, total_cost row = Fin tc /\ 0 <= tc.
Proof.
  unfold valid_costs, total_cost. rewrite !andb_true_iff.
  intros [[[Hc Hf] Hs] Hh].
  apply nonneg_inv in Hc as (c & -> & ?), Hf as (f & -> & ?),
        Hs as (s & -> & ?), Hh as (h & -> & ?).
  exists (c + f + s + h). split; [reflexivity | lra].
Qed.

Lemma price_targets_finite (row : gmap string xq) (tc : Q) :
  valid_margins row = true -> total_cost row = Fin tc ->
  exists mm tm,
    mm < 100 /\ tm < 100
    /\ min_price_allowed row = Fin (price_at tc mm)
    /\ target_price row = Fin (price_at tc tm).
Proof.
  unfold valid_margins, min_price_allowed, target_price, min_margin,
    target_margin.
  rewrite andb_true_iff. intros [Hm Ht] ->.
  apply below_inv in Hm as (mm & -> & ?), Ht as (tm & -> & ?).
  exists mm, tm. cbn [nlit nsub ndiv xq_num]. now rewrite !price_finite.
Qed.

Lemma inventory_signal_values (row : gmap string xq) :
  is_signal (inventory_signal row).
Proof. unfold is_signal, inventory_signal. case_if; cbn; auto. Qed.

Lemma ads_signal_values (row : gmap string xq) : is_signal (ads_signal row).
Proof. unfold is_signal, ads_signal. case_if; cbn; auto. Qed.

Lemma risk_signal_values (row : gmap string xq) : is_signal (risk_signal row).
Proof. unfold is_signal, risk_signal. case_if; cbn; auto. Qed.

Lemma signal_factor (x : xq) :
  is_signal x -> exists k, XQ.add (Fin 1) x = Fin k /\ 0.95 <= k /\ k <= 1.05.
Proof.
  intros [-> | [-> | ->]]; eexists; (split; [reflexivity | lra]).
Qed.

Lemma signalled_price_finite (row : gmap string xq) (b : Q) :
  base row = Fin b ->
  exists p k, signalled_price row = Fin p /\ p == b * k /\ 0 < k.
Proof.
  intros Hb. unfold signalled_price. rewrite Hb. cbn [nlit nadd nmul xq_num].
  destruct (signal_factor _ (inventory_signal_values row)) as (ki & -> & ? & ?).
  destruct (signal_factor _ (ads_signal_values row)) as (ka & -> & ? & ?).
  destruct (signal_factor _ (risk_signal_values row)) as (kr & -> & ? & ?).
  exists (b * ki * ka * kr), (ki * ka * kr).
  split; [reflexivity|]. split; [ring|].
  assert (0 < ki * ka) by nra. nra.
Qed.

Lemma py_max_finite (a b : Q) :
  exists m, py_max (Fin a) (Fin b) = Fin m
            /\ a <= m /\ b <= m /\ (m == a \/ m == b).
Proof.
  unfold py_max. cbn [nltb xq_num XQ.ltb].
  destruct (Qltb a b) eqn:E; qprop; eexists; (split; [reflexivity|]); lra.
Qed.

Lemma py_max_inf_l (y : xq) : py_max PosInf y = PosInf.
Proof. destruct y; reflexivity. Qed.

Lemma py_max_inf_r (a : Q) : py_max (Fin a) PosInf = PosInf.
Proof. reflexivity. Qed.

Lemma mul_inf_factor (k : Q) : 0 < k -> XQ.mul PosInf (Fin k) = PosInf.
Proof.
  intros Hk. cbn. unfold XQ.scale_inf.
  assert (N : Qeq_bool k 0 = false) by (apply Qeq_bool_ne; lra).
  assert (P : Qltb 0 k = true) by (now apply Qltb_lt).
  now rewrite N, P.
Qed.

Lemma competitor_target_finite (row : gmap string xq) :
  nonneg (current_price row) = true -> optional (competitor_avg row) = true ->
  exists ct, competitor_target row = Fin ct.
Proof.
  intros Hcp Hc. unfold competitor_target.
  apply nonneg_inv in Hcp as (cp & -> & ?).
  apply optional_inv in Hc as [-> | (c & ->)].
  - cbn. eauto.
  - rewrite isna_fin. cbn. eauto.
Qed.

Lemma blended_price_finite (row : gmap string xq) (p ct : Q) :
  signalled_price row = Fin p -> competitor_target row = Fin ct ->
  blended_price row = Fin (0.6 * p + 0.4 * ct).
Proof. unfold blended_price. now intros -> ->. Qed.

(* The prices of a valid row, with the signs the claims need. *)
Lemma valid_row_finite (row : gmap string xq) :
  valid_row row = true ->
  exists tc m p ct,
    total_cost row = Fin tc /\ min_price_allowed row = Fin m
    /\ signalled_price row = Fin p /\ competitor_target row = Fin ct
    /\ 0 <= tc /\ 0 <= m /\ 0 <= p
    /\ (0 < tc -> 0 < m) /\ (tc == 0 -> m == 0 /\ p == 0).
Proof.
  unfold valid_row. rewrite !andb_true_iff.
  intros [[[[[[[Hc Hm] Hcp] _] _] _] Hco] _].
  destruct (total_cost_finite _ Hc) as (tc & Htc & ?).
  destruct (price_targets_finite _ _ Hm Htc)
    as (mm & tm & ? & ? & Hmin & Htar).
  destruct (price_at_sign tc mm) as (? & ? & ?); [lra.. |].
  destruct (price_at_sign tc tm) as (? & ? & ?); [lra.. |].
  destruct (py_max_finite (price_at tc tm) (price_at tc mm))
    as (b & Hb & ? & ? & Hor).
  destruct (signalled_price_finite row b) as (p & k & Hp & Hpk & ?).
  { unfold base. now rewrite Hmin, Htar. }
  destruct (competitor_target_finite _ Hcp Hco) as (ct & Hct).
  exists tc, (price_at tc mm), p, ct.
  repeat split; auto.
  - rewrite Hpk. apply Qmult_le_0_compat; lra.
  - assert (Hb0 : b == 0) by (destruct Hor; lra). rewrite Hpk, Hb0. ring.
Qed.

(** ** Properties of valid rows *)

(** C2, as the script behaves.  No input is rejected: for a row with a
    positive total cost whose minimum or target margin is 100%, the zero
    denominator [1 - margin] makes the corresponding price [+inf] and the
    recommended price is [+inf]. *)
Theorem full_margin_not_rejected (row : gmap string xq) (mm tm : Q) :
  valid_costs row = true ->
  nonneg (current_price row) = true ->
  optional (competitor_avg row) = true ->
  (total_cost row >? lit 0)%num = true ->
  get row "Minimum_Acceptable_Margin_%" (lit 10) = Fin mm ->
  get row "Target_Gross_Margin_%" (lit 25) = Fin tm ->
  mm == 100 \/ tm == 100 ->
  recommended_price row = PosInf
  /\ (tm == 100 -> target_price row = PosInf)
  /\ (mm == 100 -> min_price_allowed row = PosInf).
Proof.
  intros Hc Hcp Hco Hpos Hmm Htm Hfull.
  destruct (total_cost_finite _ Hc) as (tc & Htc & _).
  rewrite Htc in Hpos. cbn in Hpos. qprop.
  destruct (competitor_target_finite _ Hcp Hco) as (ct & Hct).
  destruct (price_at_full_margin tc mm Hpos) as (Hm1 & Hm2).
  destruct (price_at_full_margin tc tm Hpos) as (Ht1 & Ht2).
  assert (Emin : min_price_allowed row
                 = XQ.div (Fin tc)
                     (XQ.sub (Fin 1) (XQ.div (Fin mm) (Fin 100)))).
  { unfold min_price_allowed, min_margin. now rewrite Htc, Hmm. }
  assert (Etar : target_price row
                 = XQ.div (Fin tc)
                     (XQ.sub (Fin 1) (XQ.div (Fin tm) (Fin 100)))).
  { unfold target_price, target_margin. now rewrite Htc, Htm. }
  assert (Hbase : base row = PosInf).
  { unfold base. rewrite Emin, Etar.
    destruct (Qeq_dec tm 100) as [E|N].
    - rewrite (Ht1 E). apply py_max_inf_l.
    - destruct (Ht2 N) as (t & ->). destruct Hfull as [E|E]; [|contradiction].
      rewrite (Hm1 E). apply py_max_inf_r. }
  assert (Hsig : signalled_price row = PosInf).
  { unfold signalled_price. rewrite Hbase. cbn [nlit nadd nmul xq_num].
    destruct (signal_factor _ (inventory_signal_values row))
      as (ki & -> & ? & ?).
    destruct (signal_factor _ (ads_signal_values row)) as (ka & -> & ? & ?).
    destruct (signal_factor _ (risk_signal_values row)) as (kr & -> & ? & ?).
    rewrite !mul_inf_factor by lra. reflexivity. }
  split; [|split].
  - unfold recommended_price, blended_price. rewrite Hsig, Hct.
    apply py_max_inf_l.
  - intros E. rewrite Etar. auto.
  - intros E. rewrite Emin. auto.
Qed.


(** C10.  Competitor monotonicity: with every other field of a valid row
    held fixed, a larger average competitor price never gives a smaller
    recommended price. *)
Theorem competitor_monotone (row : gmap string xq) (c1 c2 : Q) :
  valid_row (<["Avg_Competitor_Price" := Fin c1]> row) = true ->
  c1 <= c2 ->
  (recommended_price (<["Avg_Competitor_Price" := Fin c1]> row)
   <=? recommended_price (<["Avg_Competitor_Price" := Fin c2]> row))%num
  = true.
Proof.
  intros Hv Hle.
  destruct (valid_row_finite _ Hv) as (tc & m & p & ct & _ & Hm & Hp & _).
  destruct (competitor_frame row (Fin c1)) as (_ & Em1 & Ep1 & Ec1 & Ea1).
  destruct (competitor_frame row (Fin c2)) as (_ & Em2 & Ep2 & Ec2 & Ea2).
  assert (Hcp : exists cp, current_price row = Fin cp).
  { unfold valid_row in Hv. rewrite !andb_true_iff in Hv.
    destruct Hv as [[[[[[_ Hcp] _] _] _] _] _].
    apply nonneg_inv in Hcp as (cp & Hcp & _).
    rewrite Ec1 in Hcp. eauto. }
  destruct Hcp as (cp & Hcp).
  rewrite Em1 in Hm. rewrite Ep1 in Hp.
  unfold recommended_price, blended_price, competitor_target.
  rewrite Em1, Em2, Ep1, Ep2, Ec1, Ec2, Ea1, Ea2, Hm, Hp, Hcp, !isna_fin.
  cbn [negb nlit nadd nmul xq_num XQ.add XQ.mul].
  destruct (py_max_finite (0.6 * p + 0.4 * (0.7 * c1 + 0.3 * cp)) m)
    as (r1 & -> & ? & ? & Hor1).
  destruct (py_max_finite (0.6 * p + 0.4 * (0.7 * c2 + 0.3 * cp)) m)
    as (r2 & -> & ? & ? & Hor2).
  cbn. apply Qle_bool_iff. destruct Hor1; lra.
Qed.

(** ** The concrete rows *)

(** C5.  On the scenario of the specification the script computes a total
    cost of 15, a minimum price of 16.6667, a target price of 20, signals
    +0.05, +0.05 and 0, a competitor target of 20.8, a recommended price of
    21.55, the risk level HIGH and the three rationale strings.  In exact
    arithmetic the prices are 50/3, 20.8 and 21.55; binary64 gives
    16.666666666666668, 20.799999999999997 and 21.549999999999997, the same
    to the decimals written. *)
Theorem concrete_scenario :
  scenario_outputs scenario
  /\ (min_price_allowed scenario =? lit 50 / lit 3)%num = true
  /\ (competitor_target scenario =? lit 20.8)%num = true
  /\ (recommended_price scenario =? lit 21.55)%num = true
  /\ scenario_outputs scenario64
  /\ min_price_allowed scenario64 = 16.666666666666668%float
  /\ competitor_target scenario64 = 20.799999999999997%float
  /\ recommended_price scenario64 = 21.549999999999997%float.
Proof.
  unfold scenario_outputs. vm_compute. repeat split.
Qed.

(** C2 fails on the script: with a target margin of 100% nothing is
    rejected and the recommended price is infinite, on both
    implementations. *)
Lemma full_margin_returns_infinity :
  get full_margin "Target_Gross_Margin_%" (lit 25) = Fin 100
  /\ target_price full_margin = PosInf
  /\ recommended_price full_margin = PosInf
  /\ target_price full_margin64 = infinity
  /\ recommended_price full_margin64 = infinity.
Proof. vm_compute. repeat split. Qed.


(** ** Empty cells

    [row.get(key, default)] gives the default for a column the table does
    not have.  A cell the table leaves empty is read as [nan], and lines
    44-54 have no [pd.isna] test of the kind lines 78, 90 and 98 apply to the
    optional fields. *)

(** C1, at a row where the script breaks the floor.  With the cell of the
    minimum margin empty, [min_price_allowed] is [nan]; [max] at line 126
    then keeps the blended price, 14, which is below the total cost, 15, and
    below the floor 16.67 of the default margin of 10%.  The test
    [recommended_price >= min_price_allowed] is false. *)
Theorem empty_margin_cell_breaks_floor :
  isna (min_price_allowed empty_margin64) = true
  /\ (total_cost empty_margin64 =? lit 15)%num = true
  /\ (recommended_price empty_margin64 =? lit 14)%num = true
  /\ (recommended_price empty_margin64
      >=? min_price_allowed empty_margin64)%num = false
  /\ (recommended_price empty_margin64
      <? total_cost empty_margin64 / (lit 1 - lit 10 / lit 100))%num = true
  /\ isna (min_price_allowed empty_margin) = true
  /\ (total_cost empty_margin =? lit 15)%num = true
  /\ (recommended_price empty_margin =? lit 14)%num = true
  /\ (recommended_price empty_margin
      >=? min_price_allowed empty_margin)%num = false
  /\ (recommended_price empty_margin
      <? total_cost empty_margin / (lit 1 - lit 10 / lit 100))%num = true.
Proof. vm_compute. repeat split. Qed.

(** C8, at rows where the script breaks it.  For a product whose four cost
    cells are 0 and whose minimum-margin cell is empty, the total cost and
    the target price are 0 and [min_price_allowed] is [nan].  For a product
    whose cost cell is empty (its other cost cells 0), the total cost and
    both prices are [nan]. *)
Theorem zero_cost_edge_with_empty_cell :
  (total_cost free_item_empty_margin64 =? lit 0)%num = true
  /\ (target_price free_item_empty_margin64 =? lit 0)%num = true
  /\ isna (min_price_allowed free_item_empty_margin64) = true
  /\ (min_price_allowed free_item_empty_margin64 =? lit 0)%num = false
  /\ isna (total_cost free_item_empty_cost64) = true
  /\ (total_cost free_item_empty_cost64 =? lit 0)%num = false
  /\ (min_price_allowed free_item_empty_cost64 =? lit 0)%num = false
  /\ (target_price free_item_empty_cost64 =? lit 0)%num = false
  /\ (total_cost free_item_empty_margin =? lit 0)%num = true
  /\ (target_price free_item_empty_margin =? lit 0)%num = true
  /\ min_price_allowed free_item_empty_margin = Nan
  /\ total_cost free_item_empty_cost = Nan
  /\ min_price_allowed free_item_empty_cost = Nan
  /\ target_price free_item_empty_cost = Nan.
Proof. vm_compute. repeat split. Qed.

(* An empty cost cell in the scenario of the specification: the row is not a
   row of numbers, every price is [nan], and no comparison with it holds. *)
Remark empty_cell_is_not_defaulted :
  valid_row empty_cost = false
  /\ isna (total_cost empty_cost) = true
  /\ isna (recommended_price empty_cost) = true
  /\ isna (total_cost empty_cost64) = true
  /\ isna (recommended_price empty_cost64) = true
  /\ (recommended_price empty_cost64 >=? min_price_allowed empty_cost64)%num
     = false.
Proof. vm_compute. repeat split. Qed.

(** ** The theorems at concrete rows *)

Lemma full_margin_not_rejected_witness :
  recommended_price full_margin = PosInf
  /\ target_price full_margin = PosInf.
Proof.
  destruct (full_margin_not_rejected full_margin 10 100) as (Hr & Ht & _);
    try reflexivity.
  - right. reflexivity.
  - split; [exact Hr | apply Ht; reflexivity].
Defined.


Lemma current_margin_zero_guard_witness :
  current_margin free_item64 = lit 0
  /\ current_margin scenario64
     = ((current_price scenario64 - total_cost scenario64)
        / current_price scenario64)%num.
Proof.
  split.
  - apply (proj1 (current_margin_zero_guard free_item64)).
    vm_compute. reflexivity.
  - apply (proj2 (current_margin_zero_guard scenario64)).
    vm_compute. reflexivity.
Defined.

Lemma risk_classification_witness :
  risk_level scenario64 = "HIGH"
  /\ risk_level short_supply64 = "MEDIUM"
  /\ risk_level free_item64 = "LOW".
Proof.
  split; [|split].
  - apply (proj1 (risk_classification scenario64)).
    right. split; vm_compute; reflexivity.
  - apply (proj1 (proj2 (risk_classification short_supply64))).
    + intros [E | [_ E]]; vm_compute in E; discriminate E.
    + split; vm_compute; reflexivity.
  - apply (proj2 (proj2 (risk_classification free_item64))).
    + intros [E | [_ E]]; vm_compute in E; discriminate E.
    + intros [E _]. vm_compute in E. discriminate E.
Defined.

Lemma signal_implies_high_risk_witness :
  (ads_signal scenario64 =? lit 0.05)%num = true
  /\ risk_level scenario64 = "HIGH".
Proof.
  split; [vm_compute; reflexivity|].
  apply (signal_implies_high_risk scenario64).
  right. vm_compute. reflexivity.
Defined.

Lemma competitor_monotone_witness :
  (recommended_price (<["Avg_Competitor_Price" := Fin 22]> scenario)
   <=? recommended_price (<["Avg_Competitor_Price" := Fin 30]> scenario))%num
  = true.
Proof.
  apply (competitor_monotone scenario 22 30).
  - reflexivity.
  - discriminate.
Defined.

(** * Further properties of the script *)

From stdpp Require Import sorting.

Local Close Scope Q_scope.

(** ** More facts about the numbers *)

(* Further facts about the numbers: a comparison that holds has no [nan]
   side, and the signs of the three signal values are as written. *)
Class PyNumFacts (num : Type) `{PyNum num} : Prop := {
  nleb_numbers : forall x y : num,
    (x <=? y)%num = true -> (x =? x)%num = true /\ (y =? y)%num = true;
  nltb_numbers : forall x y : num,
    (x <? y)%num = true -> (x =? x)%num = true /\ (y =? y)%num = true;
  up_positive : (lit 0.05 >? lit 0)%num = true;
  down_negative : (- lit 0.05 <? lit 0)%num = true;
  down_not_positive : (- lit 0.05 >? lit 0)%num = false;
  zero_not_positive : (lit 0 >? lit 0)%num = false
}.

#[export] Instance xq_facts : PyNumFacts xq.
Proof.
  split; cbn [nltb nleb neqb nlit nneg xq_num].
  - intros [a| | |] [b| | |]; simpl; try easy;
      intros _; split; try reflexivity; apply Qeq_bool_iff; reflexivity.
  - intros [a| | |] [b| | |]; simpl; try easy;
      intros _; split; try reflexivity; apply Qeq_bool_iff; reflexivity.
  - reflexivity.
  - reflexivity.
  - reflexivity.
  - reflexivity.
Qed.

Lemma SFcompare_refl (x : spec_float) :
  SFcompare x x = None \/ SFcompare x x = Some Eq.
Proof.
  destruct x as [s|s| |s m e]; cbn; try destruct s; auto;
    rewrite Z.compare_refl;
    change (Pos.compare_cont Eq m m) with (Pos.compare m m);
    rewrite Pos.compare_refl; auto.
Qed.

Lemma SFcompare_Some (x y : spec_float) (c : comparison) :
  SFcompare x y = Some c -> SFeqb x x = true /\ SFeqb y y = true.
Proof.
  intros E. unfold SFeqb.
  destruct (SFcompare_refl x) as [Hx|Hx], (SFcompare_refl y) as [Hy|Hy];
    rewrite ?Hx, ?Hy; auto;
    destruct x, y; cbn in *; congruence.
Qed.

#[export] Instance float_facts : PyNumFacts float.
Proof.
  split; cbn [nltb nleb neqb nlit nneg float_num].
  - intros x y. rewrite !FloatAxioms.eqb_spec, FloatAxioms.leb_spec.
    unfold SFleb. destruct (SFcompare _ _) as [c|] eqn:E; [|discriminate].
    intros _. exact (SFcompare_Some _ _ _ E).
  - intros x y. rewrite !FloatAxioms.eqb_spec, FloatAxioms.ltb_spec.
    unfold SFltb. destruct (SFcompare _ _) as [c|] eqn:E; [|discriminate].
    intros _. exact (SFcompare_Some _ _ _ E).
  - vm_compute. reflexivity.
  - vm_compute. reflexivity.
  - vm_compute. reflexivity.
  - vm_compute. reflexivity.
Qed.

Section More_rules.

Context {num : Type} `{PyNumLaws num} `{!PyNumFacts num}.
Local Open Scope num_scope.

(** X1.  The floor of line 126 holds exactly when neither the blended price
    nor the minimum price is [nan]: a [nan] on either side is the only way
    the recommended price can fail to reach [min_price_allowed].  It holds
    for every row on both implementations, binary64 included. *)
Theorem floor_holds_unless_nan (row : gmap string num) :
  (recommended_price row >=? min_price_allowed row) = true
  <-> isna (blended_price row) = false /\ isna (min_price_allowed row) = false.
Proof.
  split.
  - intros Hfloor.
    destruct (nleb_numbers _ _ Hfloor) as [Hm Hr].
    split; [|now apply isna_false].
    unfold recommended_price, py_max in Hr.
    destruct (min_price_allowed row >? blended_price row) eqn:E.
    + apply isna_false. now destruct (nltb_numbers _ _ E).
    + now apply isna_false.
  - intros [Hb Hm]. now apply floor_unless_nan.
Qed.

End More_rules.

Section Outputs.

Context {num : Type} `{PyNum num}.
Local Open Scope num_scope.

(* The columns the outputs are computed from. *)
Definition used_columns : list string :=
  ["Cost"; "FBA_Fee"; "Storage_Fee"; "Handling_Cost";
   "Minimum_Acceptable_Margin_%"; "Target_Gross_Margin_%"; "Current_Price";
   "days_of_supply"; "Avg_Competitor_Price"; "units_shipped_t90";
   "returns_t90"; "acosClicks14d"].

(* What the page shows of the row: the values of the eight KPI cards (lines
   144-153, before formatting) and the rationale (lines 171-172). *)
Definition displayed (row : gmap string num)
  : num * num * num * string * num * num * num * num * list string :=
  (current_price row, days_supply row, current_margin row, risk_level row,
   total_cost row, min_margin row, target_margin row, recommended_price row,
   reason row).

(* Two rows with the same cells in the used columns. *)
Definition agree (row1 row2 : gmap string num) : Prop :=
  forall key, key ∈ used_columns -> row1 !! key = row2 !! key.

Ltac in_used :=
  unfold used_columns; apply list_elem_of_In; simpl; tauto.

Lemma agree_get (row1 row2 : gmap string num) (key : string) (d : num) :
  agree row1 row2 -> key ∈ used_columns -> get row1 key d = get row2 key d.
Proof. intros Ha Hk. unfold get. now rewrite (Ha key Hk). Qed.

(** X2.  The page depends on twelve columns only: two rows with the same
    cells in [used_columns] show the same KPI values and rationale and have
    the same recommended margin.  The lowest and highest competitor prices
    (lines 60-61) are read and never used. *)
Theorem outputs_depend_on_used_columns (row1 row2 : gmap string num) :
  agree row1 row2 ->
  displayed row1 = displayed row2
  /\ recommended_margin row1 = recommended_margin row2.
Proof.
  intros Ha.
  assert (G : forall key d, key ∈ used_columns ->
                            get row1 key d = get row2 key d)
    by (intros; now apply agree_get).
  assert (Etc : total_cost row1 = total_cost row2).
  { unfold total_cost. rewrite !(G _ (lit 0)); [reflexivity | ..];
      in_used. }
  assert (Emm : min_margin row1 = min_margin row2).
  { unfold min_margin. rewrite G; [reflexivity|]. in_used. }
  assert (Etm : target_margin row1 = target_margin row2).
  { unfold target_margin. rewrite G; [reflexivity|]. in_used. }
  assert (Ecp : current_price row1 = current_price row2).
  { unfold current_price. apply G. in_used. }
  assert (Eds : days_supply row1 = days_supply row2).
  { unfold days_supply. apply G. in_used. }
  assert (Eca : competitor_avg row1 = competitor_avg row2).
  { unfold competitor_avg. apply G. in_used. }
  assert (Eu : units90 row1 = units90 row2).
  { unfold units90. apply G. in_used. }
  assert (Er : returns90 row1 = returns90 row2).
  { unfold returns90. apply G. in_used. }
  assert (Eac : ads_acos row1 = ads_acos row2).
  { unfold ads_acos. apply G. in_used. }
  assert (Erl : return_risk_load row1 = return_risk_load row2).
  { unfold return_risk_load. now rewrite Er, Eu, Etc. }
  assert (Emp : min_price_allowed row1 = min_price_allowed row2).
  { unfold min_price_allowed. now rewrite Etc, Emm. }
  assert (Etp : target_price row1 = target_price row2).
  { unfold target_price. now rewrite Etc, Etm. }
  assert (Eis : inventory_signal row1 = inventory_signal row2).
  { unfold inventory_signal. now rewrite Eds. }
  assert (Eas : ads_signal row1 = ads_signal row2).
  { unfold ads_signal. now rewrite Eac. }
  assert (Ers : risk_signal row1 = risk_signal row2).
  { unfold risk_signal. now rewrite Erl, Etc. }
  assert (Ect : competitor_target row1 = competitor_target row2).
  { unfold competitor_target. now rewrite Eca, Ecp. }
  assert (Esp : signalled_price row1 = signalled_price row2).
  { unfold signalled_price, base. now rewrite Etp, Emp, Eis, Eas, Ers. }
  assert (Erp : recommended_price row1 = recommended_price row2).
  { unfold recommended_price, blended_price. now rewrite Esp, Ect, Emp. }
  assert (Ecm : current_margin row1 = current_margin row2).
  { unfold current_margin. now rewrite Ecp, Etc. }
  assert (Erk : risk_level row1 = risk_level row2).
  { unfold risk_level. now rewrite Erl, Etc, Eac, Eds. }
  assert (Ere : reason row1 = reason row2).
  { unfold reason. now rewrite Eis, Eas, Ers, Eca. }
  split.
  - unfold displayed. congruence.
  - unfold recommended_margin. now rewrite Erp, Etc.
Qed.

(** X3.  The risk level read back: HIGH means the risk signal or the ads
    signal is +0.05; MEDIUM means the inventory signal is +0.05 while the
    risk signal is 0 and the ads signal is not +0.05; LOW means no signal
    is +0.05. *)
Theorem risk_level_explains_signals (row : gmap string num) :
  (risk_level row = "HIGH" ->
   risk_signal row = lit 0.05 \/ ads_signal row = lit 0.05)
  /\ (risk_level row = "MEDIUM" ->
      inventory_signal row = lit 0.05 /\ risk_signal row = lit 0
      /\ (ads_signal row = lit 0 \/ ads_signal row = - lit 0.05))
  /\ (risk_level row = "LOW" ->
      risk_signal row = lit 0
      /\ (inventory_signal row = lit 0 \/ inventory_signal row = - lit 0.05)
      /\ (ads_signal row = lit 0 \/ ads_signal row = - lit 0.05)).
Proof.
  unfold risk_level, risk_signal, ads_signal, inventory_signal.
  destruct (return_risk_load row >? lit 0.2 * total_cost row);
    destruct (isna (ads_acos row)); destruct (ads_acos row >? lit 40);
    destruct (ads_acos row <? lit 20);
    destruct (isna (days_supply row)); destruct (days_supply row <? lit 20);
    destruct (days_supply row >? lit 90);
    cbn [orb andb negb];
    (split; [|split]); intros E; try discriminate E; auto.
Qed.

End Outputs.

Section Rationale.

Context {num : Type} `{PyNum num} `{!PyNumFacts num}.
Local Open Scope num_scope.

(* The rationale strings, read off the inputs: each line of the page is
   decided by the same tests as the signal it reports. *)
Definition explained (row : gmap string num) : list string :=
  (if isna (days_supply row) then []
   else if days_supply row <? lit 20
   then ["Low inventory → price increased slightly"]
   else if days_supply row >? lit 90
   then ["High inventory → price reduced slightly"]
   else [])
  ++ (if isna (ads_acos row) then []
      else if ads_acos row >? lit 40
      then ["High ACOS → price increased to protect margin"]
      else if ads_acos row <? lit 20
      then ["Efficient ads → price optimized for volume"]
      else [])
  ++ (if return_risk_load row >? lit 0.2 * total_cost row
      then ["High returns → risk-adjusted pricing"]
      else [])
  ++ (if negb (isna (competitor_avg row))
      then ["Price aligned with competitor market"]
      else []).

(* Lines 162-169 on any tests and strings. *)
Lemma append_chain (b1 b2 b3 b4 b5 b6 : bool) (s1 s2 s3 s4 s5 s6 s7 : string) :
  (let reason := [] in
   let reason :=
     if b1 then append reason s1
     else if b2 then append reason s2 else reason in
   let reason :=
     if b3 then append reason s3
     else if b4 then append reason s4 else reason in
   let reason := if b5 then append reason s5 else reason in
   let reason := if b6 then append reason s6 else reason in
   let reason :=
     if Nat.eqb (length reason) 0 then append reason s7 else reason in
   reason)
  = match
      (if b1 then [s1] else if b2 then [s2] else [])
      ++ (if b3 then [s3] else if b4 then [s4] else [])
      ++ (if b5 then [s5] else [])
      ++ (if b6 then [s6] else [])
    with
    | [] => [s7]
    | s :: l => s :: l
    end.
Proof. destruct b1, b2, b3, b4, b5, b6; reflexivity. Qed.

(* A line of the rationale follows the sign of its signal. *)
Lemma signal_line (absent up down : bool) (s1 s2 : string) :
  let signal : num :=
    if absent then lit 0
    else if up then lit 0.05 else if down then - lit 0.05 else lit 0 in
  (if signal >? lit 0 then [s1] else if signal <? lit 0 then [s2] else [])
  = (if absent then [] else if up then [s1] else if down then [s2] else []).
Proof.
  pose proof up_positive. pose proof down_negative.
  pose proof down_not_positive. pose proof zero_not_positive as Hz.
  cbn zeta. destruct absent, up, down;
    repeat match goal with
      | E : ?c = _ |- context [if ?c then _ else _] => rewrite E
      end; reflexivity.
Qed.

Lemma risk_line (fires : bool) (s : string) :
  (if (if fires then lit 0.05 else lit 0 : num) >? lit 0 then [s] else [])
  = (if fires then [s] else []).
Proof.
  destruct fires; [now rewrite up_positive | now rewrite zero_not_positive].
Qed.

(** X4.  The rationale, read off the inputs: it lists low or high inventory
    for days of supply below 20 or above 90, high or efficient ACOS for an
    ACOS above 40 or below 20, high returns when the return-risk load
    exceeds 0.2 times the total cost, and the competitor line when an
    average competitor price is present, in that order; the fallback line
    otherwise. *)
Theorem rationale_from_inputs (row : gmap string num) :
  reason row =
    match explained row with
    | [] => ["Price optimized to reach target margin safely"]
    | s :: l => s :: l
    end.
Proof.
  unfold reason. rewrite append_chain.
  unfold inventory_signal, ads_signal, risk_signal, explained.
  pose proof (signal_line (isna (days_supply row))
                (days_supply row <? lit 20) (days_supply row >? lit 90)) as Ei.
  pose proof (signal_line (isna (ads_acos row))
                (ads_acos row >? lit 40) (ads_acos row <? lit 20)) as Ea.
  pose proof (risk_line (return_risk_load row >? lit 0.2 * total_cost row))
    as Er.
  cbn zeta in Ei, Ea. now rewrite Ei, Ea, Er.
Qed.

End Rationale.

Local Open Scope Q_scope.

(** ** More properties of valid rows *)





(* A cost field that is zero: its cell holds 0, or the table has no such
   column (the script then reads the default 0).  An empty cell is neither. *)
Definition zero_or_missing (row : gmap string xq) (key : string) : bool :=
  match row !! key with
  | None => true
  | Some v => XQ.eqb v (Fin 0)
  end.

Lemma zero_cost_field (row : gmap string xq) (key : string) :
  zero_or_missing row key = true ->
  exists q, get row key (Fin 0) = Fin q /\ q == 0.
Proof.
  unfold zero_or_missing, get. destruct (row !! key) as [[q| | |]|]; simpl;
    try discriminate.
  - intros E. qprop. eauto.
  - intros _. exists 0. split; reflexivity.
Qed.

(** X16.  The zero-cost edge without empty cells: when each of the four cost
    fields is 0 or has no column, and each margin is a number below 100 or
    has no column, the total cost, the minimum price allowed and the target
    price are all zero. *)
Theorem zero_cost_without_empty_cells (row : gmap string xq) :
  valid_margins row = true ->
  zero_or_missing row "Cost" = true ->
  zero_or_missing row "FBA_Fee" = true ->
  zero_or_missing row "Storage_Fee" = true ->
  zero_or_missing row "Handling_Cost" = true ->
  (total_cost row =? lit 0)%num = true
  /\ (min_price_allowed row =? lit 0)%num = true
  /\ (target_price row =? lit 0)%num = true.
Proof.
  intros Hm Hc Hf Hs Hh.
  apply zero_cost_field in Hc as (c & Ec & ?), Hf as (f & Ef & ?),
        Hs as (s & Es & ?), Hh as (h & Eh & ?).
  assert (Htc : total_cost row = Fin (c + f + s + h)).
  { unfold total_cost. cbn [nlit xq_num]. now rewrite Ec, Ef, Es, Eh. }
  destruct (price_targets_finite _ _ Hm Htc) as (mm & tm & ? & ? & -> & ->).
  rewrite Htc. cbn [neqb nlit xq_num XQ.eqb]. rewrite !Qeq_bool_iff.
  destruct (price_at_sign (c + f + s + h) mm) as (_ & _ & Em); [lra.. |].
  destruct (price_at_sign (c + f + s + h) tm) as (_ & _ & Et); [lra.. |].
  assert (c + f + s + h == 0) by lra. auto.
Qed.


Section Frame_price.
Context {num : Type} `{PyNum num}.

(* Everything but the current price is read from other columns. *)
Lemma current_price_frame (row : gmap string num) (v : num) :
  let row' := <["Current_Price" := v]> row in
  total_cost row' = total_cost row
  /\ min_price_allowed row' = min_price_allowed row
  /\ signalled_price row' = signalled_price row
  /\ competitor_avg row' = competitor_avg row
  /\ current_price row' = v.
Proof.
  unfold signalled_price, base, target_price, min_price_allowed, risk_signal,
    ads_signal, inventory_signal, return_risk_load, target_margin, min_margin,
    total_cost, ads_acos, days_supply, returns90, units90, current_price,
    competitor_avg.
  cbn zeta. rewrite get_insert_eq, !get_insert_ne by discriminate.
  repeat split.
Qed.

End Frame_price.

(** X11.  With every other field of a valid row held fixed, a higher
    current price never gives a lower recommended price. *)
Theorem current_price_monotone (row : gmap string xq) (p1 p2 : Q) :
  valid_row (<["Current_Price" := Fin p1]> row) = true ->
  p1 <= p2 ->
  (recommended_price (<["Current_Price" := Fin p1]> row)
   <=? recommended_price (<["Current_Price" := Fin p2]> row))%num = true.
Proof.
  intros Hv Hle.
  destruct (valid_row_finite _ Hv) as (tc & m & p & ct & _ & Hm & Hp & _).
  destruct (current_price_frame row (Fin p1)) as (_ & Em1 & Ep1 & Ea1 & Ec1).
  destruct (current_price_frame row (Fin p2)) as (_ & Em2 & Ep2 & Ea2 & Ec2).
  assert (Hco : optional (competitor_avg row) = true).
  { unfold valid_row in Hv. rewrite !andb_true_iff in Hv.
    destruct Hv as [[_ Hco] _]. now rewrite Ea1 in Hco. }
  rewrite Em1 in Hm. rewrite Ep1 in Hp.
  unfold recommended_price, blended_price, competitor_target.
  rewrite Em1, Em2, Ep1, Ep2, Ec1, Ec2, Ea1, Ea2, Hm, Hp.
  apply optional_inv in Hco as [-> | (c & ->)].
  - cbn [isna negb neqb nlit nadd nmul xq_num XQ.eqb XQ.add XQ.mul].
    destruct (py_max_finite (0.6 * p + 0.4 * p1) m) as (r1 & -> & ? & ? & Hor).
    destruct (py_max_finite (0.6 * p + 0.4 * p2) m) as (r2 & -> & ? & ? & _).
    cbn. apply Qle_bool_iff. destruct Hor; lra.
  - rewrite !isna_fin.
    cbn [negb nlit nadd nmul xq_num XQ.add XQ.mul].
    destruct (py_max_finite (0.6 * p + 0.4 * (0.7 * c + 0.3 * p1)) m)
      as (r1 & -> & ? & ? & Hor).
    destruct (py_max_finite (0.6 * p + 0.4 * (0.7 * c + 0.3 * p2)) m)
      as (r2 & -> & ? & ? & _).
    cbn. apply Qle_bool_iff. destruct Hor; lra.
Qed.

Local Close Scope Q_scope.

(** ** Line 128 on Python numbers

    A value of the script is a numpy scalar when it is a cell of the row or
    the result of an operation with a numpy operand, and a Python number
    otherwise.  The functions [numpy_...] say which, variable by variable;
    [line_128] is the outcome of the unguarded division. *)

Section Line_128.

Context {num : Type} `{PyNum num}.
Local Open Scope num_scope.

(* [row.get(key, ...)] gives a numpy scalar when the table has the column,
   and the Python default otherwise. *)
Definition numpy_cell (row : gmap string num) (key : string) : bool :=
  bool_decide (is_Some (row !! key)).

(* lines 44-49: a sum is a numpy scalar when one of its operands is *)
Definition numpy_total_cost (row : gmap string num) : bool :=
  numpy_cell row "Cost" || numpy_cell row "FBA_Fee"
  || numpy_cell row "Storage_Fee" || numpy_cell row "Handling_Cost".

(* lines 51 and 72, 52 and 73 *)
Definition numpy_min_price_allowed (row : gmap string num) : bool :=
  numpy_total_cost row || numpy_cell row "Minimum_Acceptable_Margin_%".
Definition numpy_target_price (row : gmap string num) : bool :=
  numpy_total_cost row || numpy_cell row "Target_Gross_Margin_%".

(* lines 90-93 *)
Definition numpy_competitor_target (row : gmap string num) : bool :=
  if negb (isna (competitor_avg row))
  then numpy_cell row "Avg_Competitor_Price" || numpy_cell row "Current_Price"
  else numpy_cell row "Current_Price".

(* line 115: [max] returns one of its arguments *)
Definition numpy_base (row : gmap string num) : bool :=
  if min_price_allowed row >? target_price row
  then numpy_min_price_allowed row
  else numpy_target_price row.

(* lines 120-125: the signals and the weights are Python numbers *)
Definition numpy_blended_price (row : gmap string num) : bool :=
  numpy_base row || numpy_competitor_target row.

(* line 126 *)
Definition numpy_recommended_price (row : gmap string num) : bool :=
  if min_price_allowed row >? blended_price row
  then numpy_min_price_allowed row
  else numpy_blended_price row.

(* What a line of the script does. *)
Inductive outcome : Type :=
| ZeroDivisionError
| Returns (x : num).

(* line 128: the difference is a Python number when both [recommended_price]
   and [total_cost] are, and Python's division raises on a zero divisor. *)
Definition line_128 (row : gmap string num) : outcome :=
  if negb (numpy_recommended_price row || numpy_total_cost row)
     && negb (numpy_recommended_price row)
     && (recommended_price row =? lit 0)
  then ZeroDivisionError
  else Returns (recommended_margin row).

(* A table without cost, margin and price columns, and a row without an
   average competitor price. *)
Definition unpriced (row : gmap string num) : Prop :=
  row !! "Cost" = None /\ row !! "FBA_Fee" = None
  /\ row !! "Storage_Fee" = None /\ row !! "Handling_Cost" = None
  /\ row !! "Minimum_Acceptable_Margin_%" = None
  /\ row !! "Target_Gross_Margin_%" = None
  /\ row !! "Current_Price" = None
  /\ isna (competitor_avg row) = true.

Lemma inventory_signal_cases (row : gmap string num) :
  inventory_signal row = lit 0 \/ inventory_signal row = lit 0.05
  \/ inventory_signal row = - lit 0.05.
Proof.
  unfold inventory_signal. case_if; auto.
Qed.

Lemma ads_signal_cases (row : gmap string num) :
  ads_signal row = lit 0 \/ ads_signal row = lit 0.05
  \/ ads_signal row = - lit 0.05.
Proof.
  unfold ads_signal. case_if; auto.
Qed.

Lemma risk_signal_cases (row : gmap string num) :
  risk_signal row = lit 0 \/ risk_signal row = lit 0.05.
Proof. unfold risk_signal. case_if; auto. Qed.

(* With a cost column in the table the division of line 128 is numpy's. *)
Lemma line_128_numpy (row : gmap string num) :
  numpy_total_cost row = true ->
  line_128 row = Returns (recommended_margin row).
Proof.
  intros E. unfold line_128. rewrite E, orb_true_r. reflexivity.
Qed.

End Line_128.

(* The price of an unpriced row, signal by signal. *)
Ltac unpriced_price row :=
  destruct (inventory_signal_cases row) as [Ei | [Ei | Ei]],
           (ads_signal_cases row) as [Ea | [Ea | Ea]],
           (risk_signal_cases row) as [Er | Er];
  unfold line_128, numpy_recommended_price, numpy_blended_price, numpy_base,
    numpy_competitor_target, numpy_min_price_allowed, numpy_target_price,
    numpy_total_cost, numpy_cell, recommended_price, blended_price,
    signalled_price, base, competitor_target, min_price_allowed,
    target_price, min_margin, target_margin, total_cost, current_price, get;
  cbn zeta.

Lemma unpriced_raises_xq (row : gmap string xq) :
  unpriced row -> line_128 row = ZeroDivisionError.
Proof.
  intros (Hc & Hf & Hs & Hh & Hm & Ht & Hp & Hca).
  unpriced_price row;
  rewrite Hc, Hf, Hs, Hh, Hm, Ht, Hp, Hca, Ei, Ea, Er; reflexivity.
Qed.

Lemma unpriced_raises_float (row : gmap string float) :
  unpriced row -> line_128 row = ZeroDivisionError.
Proof.
  intros (Hc & Hf & Hs & Hh & Hm & Ht & Hp & Hca).
  unpriced_price row;
  rewrite Hc, Hf, Hs, Hh, Hm, Ht, Hp, Hca, Ei, Ea, Er; vm_compute; reflexivity.
Qed.

(** X8.  Line 128 divides without a guard.  When the table has none of the
    cost, margin and current-price columns and the row has no average
    competitor price, every operand is a Python number, the recommended
    price is 0.0, and line 128 raises [ZeroDivisionError], whatever the
    other cells of the row hold; in exact arithmetic and in binary64. *)
Theorem line_128_raises_without_price_columns :
  (forall row : gmap string xq,
     unpriced row -> line_128 row = ZeroDivisionError)
  /\ (forall row : gmap string float,
        unpriced row -> line_128 row = ZeroDivisionError).
Proof. split; [apply unpriced_raises_xq | apply unpriced_raises_float]. Qed.

(* With its cost columns in the table the product without costs gets the
   [nan] of numpy's 0.0 / 0.0. *)
Remark line_128_with_cost_columns :
  line_128 free_item64 = Returns PrimFloat.nan
  /\ line_128 free_item = Returns Nan.
Proof.
  split; rewrite line_128_numpy by reflexivity; vm_compute; reflexivity.
Qed.

(** ** Choosing the row (lines 36-39) *)

(* Python compares strings lexicographically. *)
Definition string_le (a b : string) : Prop := String.leb a b = true.

#[export] Instance string_le_dec : RelDecision string_le.
Proof. intros a b. unfold string_le. apply _. Defined.

(* [Series.dropna()]: the cells that are not empty. *)
Definition dropna {A : Type} (l : list (option A)) : list A := omap id l.

(* [Series.unique()]: the values in order of first appearance. *)
Fixpoint unique {K : Type} `{EqDecision K} (l : list K) : list K :=
  match l with
  | [] => []
  | x :: l => x :: filter (fun y => y <> x) (unique l)
  end.

(* The builtin [sorted], on values that [le] orders. *)
Definition sorted {K : Type} (le : relation K) `{!RelDecision le}
    (l : list K) : list K :=
  merge_sort le l.

Section Selection.

(* [K] is the type [read_csv] gives the SKU column, ordered by [sku_le]:
   strings in lexicographic order, or integers in numeric order when every
   SKU of the file is written in digits. *)
Context {num K : Type} `{EqDecision K}.
Variable sku_le : relation K.
Context `{!RelDecision sku_le}.

(* A row of the table: its SKU cell, its Date cell (a string, as [read_csv]
   leaves it) and its numeric cells; [None] is an empty cell. *)
Record entry : Type := {
  SKU : option K;
  Date : option string;
  cells : gmap string num
}.

(* The order [sort_values("Date")] puts rows in: ascending dates, empty
   dates last. *)
Definition date_le (d1 d2 : option string) : Prop :=
  match d1, d2 with
  | _, None => True
  | None, Some _ => False
  | Some a, Some b => string_le a b
  end.

Definition by_date (e1 e2 : entry) : Prop := date_le (Date e1) (Date e2).

(* line 36: the options of the selector *)
Definition sku_options (df : list entry) : list K :=
  sorted sku_le (unique (dropna (SKU <$> df))).

(* line 37: [df[df["SKU"] == sku]]; an empty cell equals nothing, and no
   cell equals [None] (no option chosen) *)
Definition sku_df (df : list entry) (sku : option K) : list entry :=
  filter (fun e => is_Some sku /\ SKU e = sku) df.

(* [DataFrame.sort_values("Date")] orders equal dates as its (unstable)
   sorting algorithm leaves them; it is a parameter here, and the
   properties below hold for any function that permutes the rows into date
   order. *)
Variable sort_values : list entry -> list entry.

(* line 39: [.iloc[-1]] of the sorted rows; [None] is the IndexError of an
   empty selection *)
Definition latest_row (df : list entry) (sku : option K) : option entry :=
  last (sort_values (sku_df df sku)).

End Selection.

(** String order *)

Lemma string_leb_trans (a b c : string) :
  String.leb a b = true -> String.leb b c = true -> String.leb a c = true.
Proof.
  unfold String.leb. revert b c.
  induction a as [|x a IH]; intros [|y b] [|z c]; simpl; try easy.
  unfold Ascii.compare.
  destruct (N.compare_spec (Ascii.N_of_ascii x) (Ascii.N_of_ascii y)),
    (N.compare_spec (Ascii.N_of_ascii y) (Ascii.N_of_ascii z)),
    (N.compare_spec (Ascii.N_of_ascii x) (Ascii.N_of_ascii z));
    try easy; try lia; eauto.
Qed.

#[export] Instance string_le_trans : Transitive string_le.
Proof. intros a b c. apply string_leb_trans. Qed.

#[export] Instance string_le_total : Total string_le.
Proof. intros a b. apply String.leb_total. Qed.

#[export] Instance string_le_antisym : AntiSymm (=) string_le.
Proof. intros a b. apply String.leb_antisym. Qed.

Lemma elem_of_dropna {A : Type} (l : list (option A)) (x : A) :
  x ∈ dropna l <-> Some x ∈ l.
Proof.
  unfold dropna. rewrite list_elem_of_omap. split.
  - intros (y & Hy & E). cbn in E. now subst.
  - intros Hx. now exists (Some x).
Qed.

Lemma elem_of_unique {K : Type} `{EqDecision K} (l : list K) (x : K) :
  x ∈ unique l <-> x ∈ l.
Proof.
  induction l as [|y l IH]; cbn; [reflexivity|].
  rewrite !elem_of_cons, list_elem_of_filter, IH.
  destruct (decide (x = y)); intuition.
Qed.

Section Selection_facts.

Context {num K : Type} `{EqDecision K}.
Variable sku_le : relation K.
Context `{!RelDecision sku_le}.
Implicit Types (df l : list (@entry num K)) (e : @entry num K).

#[export] Instance date_le_dec : RelDecision date_le.
Proof. intros [a|] [b|]; cbn; apply _. Defined.

#[export] Instance by_date_dec : RelDecision (@by_date num K).
Proof. intros e1 e2. unfold by_date. apply _. Defined.

#[export] Instance by_date_trans : Transitive (@by_date num K).
Proof.
  intros e1 e2 e3. unfold by_date.
  destruct (Date e1), (Date e2), (Date e3); cbn; try easy.
  apply string_le_trans.
Qed.

#[export] Instance by_date_total : Total (@by_date num K).
Proof.
  intros e1 e2. unfold by_date.
  destruct (Date e1), (Date e2); cbn; auto. apply string_le_total.
Qed.

Lemma by_date_refl e : by_date e e.
Proof. destruct (by_date_total e e); assumption. Qed.

(* The last row of a sorted list is at least every row. *)
Lemma last_of_sorted l e :
  Sorted by_date l -> last l = Some e -> forall e', e' ∈ l -> by_date e' e.
Proof.
  intros Hs Hl e' He'.
  apply Sorted_StronglySorted in Hs; [|apply _].
  apply last_Some in Hl as (l' & ->).
  apply elem_of_app in He' as [He' | He'].
  - eapply StronglySorted_app_1_elem_of; [exact Hs | exact He' | set_solver].
  - apply list_elem_of_singleton in He' as ->. apply by_date_refl.
Qed.

Lemma elem_of_sku_df df sku e :
  e ∈ sku_df df sku <-> e ∈ df /\ exists s, sku = Some s /\ SKU e = Some s.
Proof.
  unfold sku_df. rewrite list_elem_of_filter. split.
  - intros [[[s ->] E] He]. eauto.
  - intros [He (s & -> & E)]. repeat split; eauto.
Qed.

Lemma elem_of_sku_options df s :
  s ∈ sku_options sku_le df <-> exists e, e ∈ df /\ SKU e = Some s.
Proof.
  unfold sku_options, sorted.
  rewrite merge_sort_Permutation, elem_of_unique, elem_of_dropna,
    list_elem_of_fmap.
  split; intros (e & ? & ?); eauto.
Qed.

Section With_sort.

(* What [sort_values] is known to do. *)
Variable sort_values : list (@entry num K) -> list (@entry num K).
Hypothesis sort_values_perm : forall l, sort_values l ≡ₚ l.

(** X13.  Line 39 fails (IndexError) exactly when no row of the table has
    the chosen SKU, which includes the case of no SKU to choose; for every
    SKU the selector offers it finds a row. *)
Theorem selection_fails_only_without_rows df sku :
  (latest_row sort_values df sku = None <->
   forall e, e ∈ df -> forall s, sku = Some s -> SKU e <> Some s)
  /\ (forall s, s ∈ sku_options sku_le df ->
                is_Some (latest_row sort_values df (Some s))).
Proof.
  assert (Hnone : forall sku',
    latest_row sort_values df sku' = None <-> sku_df df sku' = []).
  { intros sku'. unfold latest_row. rewrite last_None. split.
    - intros E. apply Permutation_nil_r. rewrite <- E.
      symmetry. apply sort_values_perm.
    - intros ->. apply Permutation_nil_r. apply sort_values_perm. }
  split.
  - rewrite Hnone. split.
    + intros E e He s -> Hs.
      assert (e ∈ sku_df df (Some s)) as Hin by (apply elem_of_sku_df; eauto).
      rewrite E in Hin. set_solver.
    + intros Hno. apply elem_of_nil_inv. intros e He.
      apply elem_of_sku_df in He as (He & s & -> & Hs).
      exact (Hno e He s eq_refl Hs).
  - intros s Hs. apply elem_of_sku_options in Hs as (e & He & Hs).
    apply not_eq_None_Some. rewrite Hnone. intros E.
    assert (e ∈ sku_df df (Some s)) as Hin by (apply elem_of_sku_df; eauto).
    rewrite E in Hin. set_solver.
Qed.

Hypothesis sort_values_sorted : forall l, Sorted by_date (sort_values l).

(** X14.  The row line 39 takes is a row of the table with the chosen SKU
    whose date no other row of that SKU exceeds, where an empty Date cell
    counts as the latest date: if some row of the SKU has no date, the row
    taken has none. *)
Theorem selected_row_is_the_latest df s e :
  latest_row sort_values df (Some s) = Some e ->
  e ∈ df /\ SKU e = Some s
  /\ (forall e', e' ∈ df -> SKU e' = Some s -> date_le (Date e') (Date e))
  /\ ((exists e', e' ∈ df /\ SKU e' = Some s /\ Date e' = None) ->
      Date e = None).
Proof.
  unfold latest_row. intros Hl.
  assert (He : e ∈ sku_df df (Some s)).
  { rewrite <- (sort_values_perm (sku_df df (Some s))).
    now apply last_Some_elem_of. }
  assert (Hmax : forall e', e' ∈ df -> SKU e' = Some s ->
                            date_le (Date e') (Date e)).
  { intros e' He' Hs.
    apply (last_of_sorted _ _ (sort_values_sorted _) Hl).
    rewrite (sort_values_perm (sku_df df (Some s))).
    apply elem_of_sku_df. eauto. }
  apply elem_of_sku_df in He as (He & s' & [= <-] & Hs).
  repeat split; try assumption.
  intros (e' & He' & Hs' & Hd). specialize (Hmax e' He' Hs').
  rewrite Hd in Hmax. now destruct (Date e).
Qed.

End With_sort.

End Selection_facts.

Lemma latest_row_elem_of {num K : Type} `{EqDecision K}
    (sort_values : list (@entry num K) -> list (@entry num K))
    (df : list (@entry num K)) (sku : option K) (e : @entry num K) :
  (forall l, sort_values l ≡ₚ l) ->
  latest_row sort_values df sku = Some e -> e ∈ df.
Proof.
  intros Hperm Hl. unfold latest_row in Hl.
  apply last_Some_elem_of in Hl. rewrite Hperm in Hl.
  now apply elem_of_sku_df in Hl as [? _].
Qed.

(** X15.  Lines 36-126 together: when every row of the table is a row of
    numbers, each SKU the selector offers gets a row, and the recommended
    price computed from it is at least the minimum price allowed. *)
Theorem every_offered_sku_gets_a_floored_price
    {K : Type} `{EqDecision K} (sku_le : relation K) `{!RelDecision sku_le}
    (sort_values : list (@entry xq K) -> list (@entry xq K))
    (df : list (@entry xq K)) (s : K) :
  (forall l, sort_values l ≡ₚ l) ->
  (forall e, e ∈ df -> valid_row (cells e) = true) ->
  s ∈ sku_options sku_le df ->
  exists e,
    latest_row sort_values df (Some s) = Some e
    /\ (recommended_price (cells e) >=? min_price_allowed (cells e))%num
       = true.
Proof.
  intros Hperm Hvalid Hs.
  destruct (latest_row sort_values df (Some s)) as [e|] eqn:Hl.
  - exists e. split; [reflexivity|].
    pose proof (Hvalid e (latest_row_elem_of _ _ _ _ Hperm Hl)) as Hv.
    destruct (valid_row_finite _ Hv)
      as (tc & m & p & ct & _ & Hm & Hp & Hct & _).
    apply floor_unless_nan.
    + rewrite (blended_price_finite _ _ _ Hp Hct). apply isna_fin.
    + rewrite Hm. apply isna_fin.
  - exfalso. apply (elem_of_sku_options sku_le) in Hs as (e & He & Hs).
    unfold latest_row in Hl. apply last_None in Hl.
    assert (Hin : e ∈ sort_values (sku_df df (Some s))).
    { rewrite Hperm. apply elem_of_sku_df. eauto. }
    rewrite Hl in Hin. set_solver.
Qed.

(** ** Concrete tables and rows *)

(* A table: two dated rows of SKU A, a row of SKU B without a date, and a
   row without a SKU. *)
Definition sample_table : list (@entry xq string) :=
  [ {| SKU := Some "A"; Date := Some "2024-02-01"; cells := scenario |};
    {| SKU := Some "B"; Date := None; cells := free_item |};
    {| SKU := Some "A"; Date := Some "2024-01-15"; cells := free_item |};
    {| SKU := None; Date := Some "2024-03-01"; cells := scenario |};
    {| SKU := Some "B"; Date := Some "2024-02-20"; cells := scenario |} ].

(* One sorting function of the kind [sort_values] is. *)
Definition merge_sort_values {num K : Type} (l : list (@entry num K))
  : list (@entry num K) := merge_sort by_date l.

Lemma merge_sort_values_perm {num K : Type} (l : list (@entry num K)) :
  merge_sort_values l ≡ₚ l.
Proof. apply merge_sort_Permutation. Qed.

Lemma merge_sort_values_sorted {num K : Type} (l : list (@entry num K)) :
  Sorted by_date (merge_sort_values l).
Proof. apply Sorted_merge_sort. apply _. Qed.

(* A table whose SKUs are written in digits, as [read_csv] types it, and the
   same table with the SKUs as strings. *)
Definition numbered_table : list (@entry xq Z) :=
  [ {| SKU := Some 9%Z; Date := Some "2024-02-01"; cells := scenario |};
    {| SKU := Some 10%Z; Date := Some "2024-02-01"; cells := scenario |};
    {| SKU := Some 9%Z; Date := Some "2024-01-15"; cells := free_item |} ].

Definition lettered_table : list (@entry xq string) :=
  [ {| SKU := Some "9"; Date := Some "2024-02-01"; cells := scenario |};
    {| SKU := Some "10"; Date := Some "2024-02-01"; cells := scenario |};
    {| SKU := Some "9"; Date := Some "2024-01-15"; cells := free_item |} ].

(* The selector lists numbers in numeric order and strings in lexicographic
   order. *)
Remark sku_options_order :
  sku_options Z.le numbered_table = [9; 10]%Z
  /\ sku_options string_le lettered_table = ["10"; "9"].
Proof. split; vm_compute; reflexivity. Qed.

(* A row of a table without cost, margin and price columns. *)
Definition unpriced_item : gmap string xq :=
  list_to_map
    [("days_of_supply", Fin 15); ("units_shipped_t90", Fin 100);
     ("returns_t90", Fin 5)].

Definition unpriced_item64 : gmap string float :=
  list_to_map
    [("days_of_supply", 15); ("units_shipped_t90", 100);
     ("returns_t90", 5)]%float.



(** ** The further properties at concrete rows *)

Lemma floor_holds_unless_nan_witness :
  (recommended_price scenario64 >=? min_price_allowed scenario64)%num = true
  /\ isna (blended_price scenario64) = false.
Proof.
  split.
  - apply (proj2 (floor_holds_unless_nan scenario64)).
    split; vm_compute; reflexivity.
  - apply (proj1 (floor_holds_unless_nan scenario64)).
    vm_compute. reflexivity.
Defined.

Lemma outputs_depend_on_used_columns_witness :
  displayed (<["Lowest_Competitor_Price" := Fin 1]> scenario)
  = displayed scenario.
Proof.
  apply (outputs_depend_on_used_columns
           (<["Lowest_Competitor_Price" := Fin 1]> scenario) scenario).
  intros key Hkey. apply lookup_insert_ne. intros <-.
  unfold used_columns in Hkey. apply list_elem_of_In in Hkey.
  simpl in Hkey. intuition discriminate.
Defined.

Lemma risk_level_explains_signals_witness :
  ads_signal scenario64 = lit 0.05
  /\ inventory_signal short_supply64 = lit 0.05
  /\ risk_signal free_item64 = lit 0.
Proof.
  split; [|split].
  - destruct (proj1 (risk_level_explains_signals scenario64)) as [E | E].
    + vm_compute. reflexivity.
    + exfalso. assert (F : (risk_signal scenario64 =? lit 0.05)%num = true)
        by (rewrite E; vm_compute; reflexivity).
      vm_compute in F. discriminate F.
    + exact E.
  - apply (proj1 (proj2 (risk_level_explains_signals short_supply64))).
    vm_compute. reflexivity.
  - apply (proj2 (proj2 (risk_level_explains_signals free_item64))).
    vm_compute. reflexivity.
Defined.

Lemma rationale_from_inputs_witness :
  reason scenario64 = explained scenario64
  /\ reason free_item64 = ["Price optimized to reach target margin safely"].
Proof.
  split.
  - rewrite (rationale_from_inputs scenario64). vm_compute. reflexivity.
  - rewrite (rationale_from_inputs free_item64). vm_compute. reflexivity.
Defined.

Lemma line_128_raises_without_price_columns_witness :
  line_128 unpriced_item = ZeroDivisionError
  /\ line_128 unpriced_item64 = ZeroDivisionError.
Proof.
  split.
  - apply (proj1 line_128_raises_without_price_columns unpriced_item).
    repeat split.
  - apply (proj2 line_128_raises_without_price_columns unpriced_item64).
    repeat split.
Defined.

Lemma zero_cost_without_empty_cells_witness :
  (total_cost free_item =? lit 0)%num = true
  /\ (min_price_allowed free_item =? lit 0)%num = true
  /\ (target_price free_item =? lit 0)%num = true.
Proof. apply (zero_cost_without_empty_cells free_item); reflexivity. Defined.


Lemma current_price_monotone_witness :
  (recommended_price (<["Current_Price" := Fin 18]> scenario)
   <=? recommended_price (<["Current_Price" := Fin 25]> scenario))%num
  = true.
Proof.
  apply (current_price_monotone scenario 18 25).
  - reflexivity.
  - discriminate.
Defined.

Lemma selection_fails_only_without_rows_witness :
  latest_row merge_sort_values sample_table (Some "C") = None
  /\ latest_row merge_sort_values sample_table None = None
  /\ is_Some (latest_row merge_sort_values sample_table (Some "B")).
Proof.
  split; [|split].
  - apply (proj1 (selection_fails_only_without_rows string_le
                    merge_sort_values merge_sort_values_perm sample_table
                    (Some "C"))).
    intros e He s [= <-] Hs. unfold sample_table in He.
    apply list_elem_of_In in He. simpl in He.
    intuition (subst; discriminate Hs).
  - apply (proj1 (selection_fails_only_without_rows string_le
                    merge_sort_values merge_sort_values_perm sample_table
                    None)).
    intros e _ s Hs. discriminate Hs.
  - apply (proj2 (selection_fails_only_without_rows string_le
                    merge_sort_values merge_sort_values_perm sample_table
                    None)).
    vm_compute. repeat constructor.
Defined.

Lemma selected_row_is_the_latest_witness :
  exists e,
    latest_row merge_sort_values sample_table (Some "B") = Some e
    /\ SKU e = Some "B" /\ Date e = None.
Proof.
  destruct (latest_row merge_sort_values sample_table (Some "B"))
    as [e|] eqn:Hl; [|vm_compute in Hl; discriminate Hl].
  exists e. split; [reflexivity|].
  destruct (selected_row_is_the_latest merge_sort_values
              merge_sort_values_perm merge_sort_values_sorted
              sample_table "B" e Hl) as (_ & Hs & _ & Hd).
  split; [exact Hs|]. apply Hd.
  exists {| SKU := Some "B"; Date := None; cells := free_item |}.
  repeat split. unfold sample_table. apply list_elem_of_In. simpl. tauto.
Defined.

Lemma every_offered_sku_gets_a_floored_price_witness :
  exists e,
    latest_row merge_sort_values sample_table (Some "A") = Some e
    /\ (recommended_price (cells e) >=? min_price_allowed (cells e))%num
       = true.
Proof.
  apply (every_offered_sku_gets_a_floored_price string_le merge_sort_values
           sample_table "A" merge_sort_values_perm).
  - intros e He. unfold sample_table in He.
    apply list_elem_of_In in He. simpl in He.
    intuition (subst; reflexivity).
  - vm_compute. repeat constructor.
Defined.
